(** * xvault-api: the OpenAI-compatible gateway in front of Ollama

    A shallow embedding of [main.py]: the bearer-token dependency
    [verify_token], the request handler [create_chat_completion] (request
    translation, the single upstream call, response translation and its
    [try]/[except] clauses) and the two exception handlers that turn a raised
    exception into an HTTP response.

    Conventions of the model.
    - A Python [str] is a [string]; [String.length] plays the part of [len]
      (one element per character).
    - A Python [int] is a [Z]; a Python [float] is carried as a [Q], the
      handler only copies floats around and never computes with them.
    - A value decoded from JSON is a [json]; a [dict] with computed keys is a
      [gmap string _].
    - Code that can raise returns a [result]; the handler, which also talks
      to the backend, runs in the monad [M], whose state is the list of
      upstream calls issued so far. *)

From Stdlib Require Import ZArith QArith_base Ascii String List Lia.
From stdpp Require Import base option strings list gmap.

Local Open Scope string_scope.
Local Open Scope list_scope.
Local Open Scope Z_scope.

Set Warnings "-register-all".

(** ** Python values *)

(** What [response.json()] can produce. *)
Inductive json : Type :=
| JNull
| JBool (b : bool)
| JInt (i : Z)
| JFloat (x : Q)
| JStr (s : string)
| JList (l : list json)
| JDict (d : gmap string json).

(** [type(v).__name__], as it appears in interpreter error messages. *)
Definition type_name (v : json) : string :=
  match v with
  | JNull => "NoneType"
  | JBool _ => "bool"
  | JInt _ => "int"
  | JFloat _ => "float"
  | JStr _ => "str"
  | JList _ => "list"
  | JDict _ => "dict"
  end.

(** [sep.join(parts)]. *)
Fixpoint join (sep : string) (parts : list string) : string :=
  match parts with
  | [] => ""
  | [s] => s
  | s :: rest => s +:+ sep +:+ join sep rest
  end.

(** [s.split(sep)] for a one-character separator: the pieces between the
    occurrences of [sep], empty pieces included. [cur] is the piece being
    read, in reverse. *)
Fixpoint split_go (sep : ascii) (cur : string) (s : string) : list string :=
  match s with
  | EmptyString => [String.rev cur]
  | String c s' =>
      if Ascii.eqb c sep then String.rev cur :: split_go sep "" s'
      else split_go sep (String c cur) s'
  end.

Definition split (sep : ascii) (s : string) : list string := split_go sep "" s.

(** [x in l] on a list of strings. *)
Definition str_in (x : string) (l : list string) : bool :=
  existsb (String.eqb x) l.

(** [len(s)] of a [str]. *)
Definition len (s : string) : Z := Z.of_nat (String.length s).

(** [a // b] on [int]. *)
Definition floordiv (a b : Z) : Z := a / b.

(** [int(x)] of a [float]: truncation towards zero. *)
Definition int_of_float (x : Q) : Z := Z.quot (Qnum x) (Z.pos (Qden x)).

(** ** Exceptions *)

(** The exceptions the handler distinguishes: FastAPI's [HTTPException], and
    every other [Exception], kept as its class name and its [str(e)]. *)
Inductive exn : Type :=
| HTTPException (status_code : Z) (detail : string)
                (headers : option (gmap string string))
| Exception (cls : string) (msg : string).

Inductive result (A : Type) : Type :=
| Ok (a : A)
| Raise (e : exn).
Arguments Ok {A} a.
Arguments Raise {A} e.

Definition HTTP_401_UNAUTHORIZED : Z := 401.
Definition HTTP_500_INTERNAL_SERVER_ERROR : Z := 500.

(** ** The pydantic models *)

Record Message : Type := mkMessage {
  role : string;
  content : string
}.

(** [Union[str, List[str]]]. *)
Inductive StopValue : Type :=
| StopStr (s : string)
| StopList (l : list string).

Record ChatCompletionRequest : Type := mkRequest {
  req_model : string;
  req_messages : list Message;
  req_temperature : option Q;
  req_top_p : option Q;
  req_n : option Z;
  req_max_tokens : option Z;
  req_stream : option bool;
  req_stop : option StopValue;
  req_presence_penalty : option Q;
  req_frequency_penalty : option Q;
  req_user : option string
}.

Record Usage : Type := mkUsage {
  prompt_tokens : Z;
  completion_tokens : Z;
  total_tokens : Z
}.

Record ChatCompletionResponseChoice : Type := mkChoice {
  index : Z;
  message : Message;
  finish_reason : string
}.

Record ChatCompletionResponse : Type := mkResponse {
  resp_id : string;
  resp_object : string;
  resp_created : Z;
  resp_model : string;
  resp_choices : list ChatCompletionResponseChoice;
  resp_usage : Usage
}.

(** Functional update of one request field. *)
Definition with_max_tokens (m : option Z) (r : ChatCompletionRequest)
    : ChatCompletionRequest :=
  {| req_model := req_model r; req_messages := req_messages r;
     req_temperature := req_temperature r; req_top_p := req_top_p r;
     req_n := req_n r; req_max_tokens := m; req_stream := req_stream r;
     req_stop := req_stop r;
     req_presence_penalty := req_presence_penalty r;
     req_frequency_penalty := req_frequency_penalty r;
     req_user := req_user r |}.

Definition with_stop (s : option StopValue) (r : ChatCompletionRequest)
    : ChatCompletionRequest :=
  {| req_model := req_model r; req_messages := req_messages r;
     req_temperature := req_temperature r; req_top_p := req_top_p r;
     req_n := req_n r; req_max_tokens := req_max_tokens r;
     req_stream := req_stream r; req_stop := s;
     req_presence_penalty := req_presence_penalty r;
     req_frequency_penalty := req_frequency_penalty r;
     req_user := req_user r |}.

Definition with_stream (b : option bool) (r : ChatCompletionRequest)
    : ChatCompletionRequest :=
  {| req_model := req_model r; req_messages := req_messages r;
     req_temperature := req_temperature r; req_top_p := req_top_p r;
     req_n := req_n r; req_max_tokens := req_max_tokens r;
     req_stream := b; req_stop := req_stop r;
     req_presence_penalty := req_presence_penalty r;
     req_frequency_penalty := req_frequency_penalty r;
     req_user := req_user r |}.

(** ** Request translation (lines 137 to 151 of [create_chat_completion]) *)

(** The dict sent to Ollama. Its four outer keys are fixed, so it is a
    record; ["options"] gets keys assigned conditionally, so it is a map. *)
Record OllamaRequest : Type := mkOllama {
  o_model : string;
  o_messages : list Message;
  o_stream : bool;
  o_options : gmap string json
}.

(** [ollama_request["options"][k] = v]. *)
Definition set_option (k : string) (v : json) (r : OllamaRequest) : OllamaRequest :=
  {| o_model := o_model r;
     o_messages := o_messages r;
     o_stream := o_stream r;
     o_options := <[k := v]> (o_options r) |}.

(** Typed request fields as the Python values they hold. *)
Definition py_float (x : option Q) : json :=
  match x with
  | Some q => JFloat q
  | None => JNull
  end.

Definition py_int (i : option Z) : json :=
  match i with
  | Some z => JInt z
  | None => JNull
  end.

Definition py_stop (s : option StopValue) : json :=
  match s with
  | Some (StopStr x) => JStr x
  | Some (StopList l) => JList (JStr <$> l)
  | None => JNull
  end.

(** Python truth value testing, as [if v:] applies it. *)
Definition truthy (v : json) : bool :=
  match v with
  | JNull => false
  | JBool b => b
  | JInt i => negb (i =? 0)
  | JFloat x => negb (Qnum x =? 0)
  | JStr s => negb (String.eqb s "")
  | JList l => negb (Nat.eqb (length l) 0)
  | JDict d => negb (Nat.eqb (size d) 0)
  end.

(** [isinstance(v, list)]. *)
Definition is_list (v : json) : bool :=
  match v with
  | JList _ => true
  | _ => false
  end.

Definition ollama_request (request : ChatCompletionRequest) : OllamaRequest :=
  let r0 :=
    {| o_model := req_model request;
       o_messages :=
         (fun msg => {| role := role msg; content := content msg |})
           <$> req_messages request;
       o_stream := false;
       o_options :=
         <["top_p" := py_float (req_top_p request)]>
           (<["temperature" := py_float (req_temperature request)]> ∅) |} in
  let max_tokens := py_int (req_max_tokens request) in
  let r1 :=
    if truthy max_tokens then set_option "num_predict" max_tokens r0 else r0 in
  let stop := py_stop (req_stop request) in
  if truthy stop
  then set_option "stop" (if is_list stop then stop else JList [stop]) r1
  else r1.

(** ** The backend and the handler's monad *)

(** One [client.post(url, json=..., timeout=...)]. *)
Record PostCall : Type := mkPost {
  post_url : string;
  post_json : OllamaRequest;
  post_timeout : Q
}.

(** An [httpx.Response], through the three members the handler reads:
    [status_code], [text], and [json()], which either decodes the body or
    raises with the given message. *)
Record HttpxResponse : Type := mkHttpx {
  hx_status_code : Z;
  hx_text : string;
  hx_json : string + json
}.

(** What a post comes to: the request never completes (connection refused,
    timeout, ...) and [client.post] raises an exception of class [cls] that
    prints as [msg], or the backend replies. *)
Inductive Upstream : Type :=
| Unreachable (cls : string) (msg : string)
| Replied (r : HttpxResponse).

(** Everything outside the process that one request observes. *)
Record World : Type := mkWorld {
  backend : PostCall -> Upstream;
  uuid4 : string;
  clock : Q
}.

(** Computations that may raise and that record the upstream calls made. *)
Definition M (A : Type) : Type := list PostCall -> result A * list PostCall.

Definition ret {A} (a : A) : M A := fun calls => (Ok a, calls).

Definition raise {A} (e : exn) : M A := fun calls => (Raise e, calls).

Definition bind {A B} (m : M A) (k : A -> M B) : M B :=
  fun calls =>
    match m calls with
    | (Ok a, calls') => k a calls'
    | (Raise e, calls') => (Raise e, calls')
    end.

Definition lift {A} (r : result A) : M A := fun calls => (r, calls).

(** [try: m  except ...: h e]. *)
Definition try_except {A} (m : M A) (h : exn -> M A) : M A :=
  fun calls =>
    match m calls with
    | (Ok a, calls') => (Ok a, calls')
    | (Raise e, calls') => h e calls'
    end.

Notation "'let*' x := m 'in' k" := (bind m (fun x => k))
  (at level 10, x name, m at level 100, k at level 200).

Definition client_post (w : World) (c : PostCall) : M HttpxResponse :=
  fun calls =>
    (match backend w c with
     | Unreachable cls msg => Raise (Exception cls msg)
     | Replied r => Ok r
     end, calls ++ [c]).

(** [response.json()]. *)
Definition response_json (r : HttpxResponse) : result json :=
  match hx_json r with
  | inl msg => Raise (Exception "JSONDecodeError" msg)
  | inr v => Ok v
  end.

(** [v.get(key, default)]: only a [dict] has the method. *)
Definition get (v : json) (key : string) (default : json) : result json :=
  match v with
  | JDict d =>
      Ok (match d !! key with
          | Some x => x
          | None => default
          end)
  | _ =>
      Raise (Exception "AttributeError"
               ("'" +:+ type_name v +:+ "' object has no attribute 'get'"))
  end.

(** [len(v)] of a decoded value. *)
Definition py_len (v : json) : result Z :=
  match v with
  | JStr s => Ok (len s)
  | JList l => Ok (Z.of_nat (length l))
  | JDict d => Ok (Z.of_nat (size d))
  | _ =>
      Raise (Exception "TypeError"
               ("object of type '" +:+ type_name v +:+ "' has no len()"))
  end.

(** ** Responses of the application *)

Record Response : Type := mkResp {
  status : Z;
  headers : gmap string string;
  body : option json
}.

(** The JSON rendering of the response model. *)
Definition Message_json (m : Message) : json :=
  JDict (<["role" := JStr (role m)]> {["content" := JStr (content m)]}).

Definition Choice_json (c : ChatCompletionResponseChoice) : json :=
  JDict (<["index" := JInt (index c)]>
         (<["message" := Message_json (message c)]>
          {["finish_reason" := JStr (finish_reason c)]})).

Definition Usage_json (u : Usage) : json :=
  JDict (<["prompt_tokens" := JInt (prompt_tokens u)]>
         (<["completion_tokens" := JInt (completion_tokens u)]>
          {["total_tokens" := JInt (total_tokens u)]})).

Definition ChatCompletionResponse_json (r : ChatCompletionResponse) : json :=
  JDict (<["id" := JStr (resp_id r)]>
         (<["object" := JStr (resp_object r)]>
          (<["created" := JInt (resp_created r)]>
           (<["model" := JStr (resp_model r)]>
            (<["choices" := JList (Choice_json <$> resp_choices r)]>
             {["usage" := Usage_json (resp_usage r)]}))))).

(** FastAPI answers a raised [HTTPException] with its status code, its
    headers and the body [{"detail": detail}]; statuses that admit no body
    (1xx, 204, 205, 304) get none. [main.py] registers no handler of its own
    for [HTTPException], so this built-in one serves all of them. *)
Definition is_body_allowed_for_status_code (status_code : Z) : bool :=
  negb ((status_code <? 200) || (status_code =? 204) || (status_code =? 205)
        || (status_code =? 304)).

Definition http_exception_handler (status_code : Z) (detail : string)
    (hdrs : option (gmap string string)) : Response :=
  {| status := status_code;
     headers := match hdrs with Some h => h | None => ∅ end;
     body := if is_body_allowed_for_status_code status_code
             then Some (JDict {["detail" := JStr detail]})
             else None |}.

(** [@app.exception_handler(Exception)], lines 114 to 120; [msg] is
    [str(exc)]. *)
Definition global_exception_handler (msg : string) : Response :=
  {| status := HTTP_500_INTERNAL_SERVER_ERROR;
     headers := ∅;
     body := Some (JDict {["error" :=
               JDict (<["message" := JStr msg]>
                      {["type" := JStr "internal_server_error"]})]}) |}.

(** The response a raised exception ends up as. *)
Definition exception_response (e : exn) : Response :=
  match e with
  | HTTPException status_code detail hdrs =>
      http_exception_handler status_code detail hdrs
  | Exception _ msg => global_exception_handler msg
  end.


(** [HTTPAuthorizationCredentials], what [HTTPBearer] extracts from the
    [Authorization] header. *)
Record HTTPAuthorizationCredentials : Type := mkCred {
  scheme : string;
  credentials : string
}.

Section Gateway.

(** [os.environ] at import time. *)
Variable environ : gmap string string.

(** The text pydantic gives the [ValidationError] of [Message(role=r,
    content=c)]; the handler only embeds it in a detail string. *)
Variable validation_error : json -> json -> string.

(** [os.environ.get(key, dflt)]. *)
Definition environ_get (key dflt : string) : string :=
  match environ !! key with
  | Some v => v
  | None => dflt
  end.

Definition API_TOKENS : list string :=
  split "," (environ_get "API_TOKENS" "test-token").

Definition OLLAMA_API_BASE : string :=
  environ_get "OLLAMA_API_BASE" "http://localhost:11434".

(** Lines 81 to 88. *)
Definition verify_token (c : HTTPAuthorizationCredentials) : result string :=
  if negb (str_in (credentials c) API_TOKENS)
  then Raise (HTTPException HTTP_401_UNAUTHORIZED
                "Invalid authentication token"
                (Some {["WWW-Authenticate" := "Bearer"]}))
  else Ok (credentials c).

(** [Message(role=r, content=c)]: both fields are declared [str], and a
    value of another type is refused (pydantic 2; a [str] passes
    unchanged in every version). *)
Definition Message_new (r c : json) : result Message :=
  match r, c with
  | JStr r', JStr c' => Ok {| role := r'; content := c' |}
  | _, _ => Raise (Exception "ValidationError" (validation_error r c))
  end.

(** The arguments of the one [client.post], lines 155 to 159. *)
Definition api_chat_call (request : ChatCompletionRequest) : PostCall :=
  {| post_url := OLLAMA_API_BASE +:+ "/api/chat";
     post_json := ollama_request request;
     post_timeout := Qmake 120 1 |}.

(** The body of the [try], lines 136 to 205. *)
Definition chat_completion_try (w : World) (request : ChatCompletionRequest)
    : M ChatCompletionResponse :=
  let* response := client_post w (api_chat_call request) in
  if negb (hx_status_code response =? 200)
  then raise (HTTPException (hx_status_code response)
                ("Ollama API error: " +:+ hx_text response) None)
  else
    let* ollama_response := lift (response_json response) in
    let completion_id := "chatcmpl-" +:+ uuid4 w in
    let created_time := int_of_float (clock w) in
    let* assistant_message := lift (get ollama_response "message" (JDict ∅)) in
    let prompt_text := join "" (content <$> req_messages request) in
    let* completion_text := lift (get assistant_message "content" (JStr "")) in
    let prompt_tokens := floordiv (len prompt_text) 4 in
    let* completion_len := lift (py_len completion_text) in
    let completion_tokens := floordiv completion_len 4 in
    let total_tokens := prompt_tokens + completion_tokens in
    let* r := lift (get assistant_message "role" (JStr "assistant")) in
    let* c := lift (get assistant_message "content" (JStr "")) in
    let* msg := lift (Message_new r c) in
    ret {| resp_id := completion_id;
           resp_object := "chat.completion";
           resp_created := created_time;
           resp_model := req_model request;
           resp_choices :=
             [ {| index := 0; message := msg; finish_reason := "stop" |} ];
           resp_usage :=
             {| prompt_tokens := prompt_tokens;
                completion_tokens := completion_tokens;
                total_tokens := total_tokens |} |}.

(** The two [except] clauses, lines 207 to 214. *)
Definition chat_completion_except (e : exn) : M ChatCompletionResponse :=
  match e with
  | HTTPException _ _ _ => raise e
  | Exception _ msg =>
      raise (HTTPException HTTP_500_INTERNAL_SERVER_ERROR
               ("Error processing chat completion: " +:+ msg) None)
  end.

(** Lines 128 to 214; [token] is what [Depends(verify_token)] returned. *)
Definition create_chat_completion (w : World)
    (request : ChatCompletionRequest) (token : string)
    : M ChatCompletionResponse :=
  try_except (chat_completion_try w request) chat_completion_except.

(** [POST /v1/chat/completions]: the dependency runs first, the handler
    only if it returned; whatever is raised becomes a response. The second
    component lists the upstream calls made for this request. *)
Definition post_chat_completions (w : World)
    (c : HTTPAuthorizationCredentials) (request : ChatCompletionRequest)
    : Response * list PostCall :=
  match verify_token c with
  | Raise e => (exception_response e, [])
  | Ok token =>
      match create_chat_completion w request token [] with
      | (Ok r, calls) =>
          ({| status := 200;
              headers := ∅;
              body := Some (ChatCompletionResponse_json r) |}, calls)
      | (Raise e, calls) => (exception_response e, calls)
      end
  end.

End Gateway.

(** [c in s] for a character [c]. *)
Fixpoint contains (c : ascii) (s : string) : bool :=
  match s with
  | EmptyString => false
  | String c' s' => Ascii.eqb c' c || contains c s'
  end.

(** ** [run_api.py]: the token list kept in [.env] *)

(** An optional command-line string as a Python value ([None] when the
    option was not given). *)
Definition py_opt_str (o : option string) : json :=
  match o with
  | Some s => JStr s
  | None => JNull
  end.

(** [l[0]] on a list of strings. *)
Definition first_item (l : list string) : result string :=
  match l with
  | x :: _ => Ok x
  | [] => Raise (Exception "IndexError" "list index out of range")
  end.

(** Lines 101 to 106 of [update_env_file]: the new value of
    [current_tokens]. *)
Definition add_token (current_tokens : string) (api_token : option string)
    : string :=
  match api_token with
  | Some t =>
      if truthy (py_opt_str api_token)
      then
        let tokens := split "," current_tokens in
        if negb (str_in t tokens)
        then join "," (tokens ++ [t])
        else current_tokens
      else current_tokens
  | None => current_tokens
  end.

(** Lines 108 and 109. *)
Definition choose_api_base (current_ollama_api : string)
    (ollama_api_base : option string) : string :=
  match ollama_api_base with
  | Some b => if truthy (py_opt_str ollama_api_base) then b else current_ollama_api
  | None => current_ollama_api
  end.

(** The line feed that ends each line written. *)
Definition LF : string := String (ascii_of_nat 10) "".

(** What [update_env_file] leaves behind: the strings written to [.env],
    in order, and the value returned (the first token). *)
Record EnvUpdate : Type := mkEnvUpdate {
  env_writes : list string;
  env_result : result string
}.

(** [update_env_file], lines 93 to 118; [environ] is [os.environ] once
    [load_dotenv()] has run. *)
Definition update_env_file (environ : gmap string string)
    (api_token ollama_api_base : option string) : EnvUpdate :=
  let current_tokens := environ_get environ "API_TOKENS" "test-token" in
  let current_ollama_api :=
    environ_get environ "OLLAMA_API_BASE" "http://localhost:11434" in
  let current_tokens := add_token current_tokens api_token in
  let current_ollama_api := choose_api_base current_ollama_api ollama_api_base in
  {| env_writes :=
       [ "# API configuration" +:+ LF;
         "API_TOKENS=" +:+ current_tokens +:+ LF;
         "OLLAMA_API_BASE=" +:+ current_ollama_api +:+ LF ];
     env_result := first_item (split "," current_tokens) |}.

(** ** [example_client.py] *)

(** Lines 46 to 49 of [chat_with_llm]: the message list of a prompt. *)
Definition chat_messages (prompt : string) (system_message : option string)
    : list Message :=
  let messages := [] in
  let messages :=
    match system_message with
    | Some sm =>
        if truthy (py_opt_str system_message)
        then messages ++ [ {| role := "system"; content := sm |} ]
        else messages
    | None => messages
    end in
  messages ++ [ {| role := "user"; content := prompt |} ].

(** Lines 57 to 61: the payload, as [ChatCompletionRequest] reads it; the
    fields the client leaves out take the defaults of the model (lines 52
    to 60 of [main.py]). *)
Definition chat_payload (prompt : string) (system_message : option string)
    (model : string) : ChatCompletionRequest :=
  {| req_model := model;
     req_messages := chat_messages prompt system_message;
     req_temperature := Some (Qmake 7 10);
     req_top_p := Some (Qmake 1 1);
     req_n := Some 1;
     req_max_tokens := None;
     req_stream := Some false;
     req_stop := None;
     req_presence_penalty := Some (Qmake 0 1);
     req_frequency_penalty := Some (Qmake 0 1);
     req_user := None |}.

(** [repr] of a key in the text of a [KeyError]. *)
Definition quoted (k : string) : string := "'" +:+ k +:+ "'".

(** [v[key]] with a string key. *)
Definition getitem (v : json) (key : string) : result json :=
  match v with
  | JDict d =>
      match d !! key with
      | Some x => Ok x
      | None => Raise (Exception "KeyError" (quoted key))
      end
  | JList _ =>
      Raise (Exception "TypeError"
               "list indices must be integers or slices, not str")
  | JStr _ =>
      Raise (Exception "TypeError"
               "string indices must be integers, not 'str'")
  | _ =>
      Raise (Exception "TypeError"
               ("'" +:+ type_name v +:+ "' object is not subscriptable"))
  end.

(** [v[0]]. *)
Definition getitem0 (v : json) : result json :=
  match v with
  | JList (x :: _) => Ok x
  | JList [] => Raise (Exception "IndexError" "list index out of range")
  | JStr (String c _) => Ok (JStr (String c ""))
  | JStr EmptyString =>
      Raise (Exception "IndexError" "string index out of range")
  | JDict _ => Raise (Exception "KeyError" "0")
  | _ =>
      Raise (Exception "TypeError"
               ("'" +:+ type_name v +:+ "' object is not subscriptable"))
  end.

Definition and_then {A B} (r : result A) (k : A -> result B) : result B :=
  match r with
  | Ok a => k a
  | Raise e => Raise e
  end.

(** Line 70: [result["choices"][0]["message"]["content"]]. *)
Definition assistant_content (reply : json) : result json :=
  and_then (getitem reply "choices") (fun choices =>
  and_then (getitem0 choices) (fun choice =>
  and_then (getitem choice "message") (fun msg =>
  getitem msg "content"))).

(** [s * n] for a string and an [int]: nothing when [n] is not positive. *)
Fixpoint repeat_string (s : string) (n : nat) : string :=
  match n with
  | O => ""
  | S n' => s +:+ repeat_string s n'
  end.

Definition str_times (s : string) (n : Z) : string :=
  repeat_string s (Z.to_nat n).

(** [s[:n]] for [n >= 0]: the first [n] characters, fewer when [s] is
    shorter. *)
Fixpoint str_take (n : nat) (s : string) : string :=
  match n, s with
  | S n', String c s' => String c (str_take n' s')
  | _, _ => ""
  end.

(** Line 94 of [interactive_chat]: the token as it is shown,
    [API_TOKEN[:4] + '*' * (len(API_TOKEN) - 4)]. *)
Definition shown_token (API_TOKEN : string) : string :=
  str_take 4 API_TOKEN +:+ str_times "*" (len API_TOKEN - 4).

(** Line 30: the token the client presents,
    [args.token or os.environ.get("API_TOKENS", "test-token").split(",")[0]]. *)
Definition API_TOKEN (environ : gmap string string)
    (args_token : option string) : result string :=
  let first :=
    first_item (split "," (environ_get environ "API_TOKENS" "test-token")) in
  match args_token with
  | Some t => if truthy (py_opt_str args_token) then Ok t else first
  | None => first
  end.

(** ** Sample requests, credentials and backends *)

Module Sample.

(** No variable set: one token, ["test-token"], and the local backend. *)
Definition env : gmap string string := ∅.

Definition no_text (r c : json) : string := "".

Definition good : HTTPAuthorizationCredentials :=
  {| scheme := "Bearer"; credentials := "test-token" |}.

Definition bad : HTTPAuthorizationCredentials :=
  {| scheme := "Bearer"; credentials := "test-token " |}.

Definition request : ChatCompletionRequest :=
  {| req_model := "llama2";
     req_messages :=
       [ {| role := "system"; content := "You are helpful." |};
         {| role := "user"; content := "Hi" |} ];
     req_temperature := Some (Qmake 7 10);
     req_top_p := Some (Qmake 1 1);
     req_n := Some 1;
     req_max_tokens := None;
     req_stream := Some false;
     req_stop := None;
     req_presence_penalty := Some (Qmake 0 1);
     req_frequency_penalty := Some (Qmake 0 1);
     req_user := None |}.

(** A backend that answers 200 with a reply naming another model and a
    truncation signal. *)
Definition reply : json :=
  JDict (<["model" := JStr "llama3:8b"]>
         (<["message" :=
              JDict (<["role" := JStr "assistant"]>
                     {["content" := JStr "Hello!"]})]>
          (<["done" := JBool true]>
           {["done_reason" := JStr "length"]}))).

Definition answering : World :=
  {| backend := fun _ =>
       Replied {| hx_status_code := 200; hx_text := "{...}";
                  hx_json := inr reply |};
     uuid4 := "3f2b8c1e-5d4a-4e0b-9c7a-1a2b3c4d5e6f";
     clock := Qmake 17622180005 10 |}.

(** A backend that cannot be reached. *)
Definition down : World :=
  {| backend := fun _ => Unreachable "ConnectError" "All connection attempts failed";
     uuid4 := "3f2b8c1e-5d4a-4e0b-9c7a-1a2b3c4d5e6f";
     clock := Qmake 17622180005 10 |}.

(** A backend that answers 404. *)
Definition missing_model : World :=
  {| backend := fun _ =>
       Replied {| hx_status_code := 404;
                  hx_text := "model not found";
                  hx_json := inr (JDict {["error" := JStr "model not found"]}) |};
     uuid4 := "3f2b8c1e-5d4a-4e0b-9c7a-1a2b3c4d5e6f";
     clock := Qmake 17622180005 10 |}.

(** A backend that answers 204 with an empty body. *)
Definition no_content : World :=
  {| backend := fun _ =>
       Replied {| hx_status_code := 204; hx_text := "";
                  hx_json := inl "Expecting value: line 1 column 1 (char 0)" |};
     uuid4 := "3f2b8c1e-5d4a-4e0b-9c7a-1a2b3c4d5e6f";
     clock := Qmake 17622180005 10 |}.

(** A backend that answers 200 with a body that is not JSON. *)
Definition garbled : World :=
  {| backend := fun _ =>
       Replied {| hx_status_code := 200; hx_text := "<html>";
                  hx_json := inl "Expecting value: line 1 column 1 (char 0)" |};
     uuid4 := "3f2b8c1e-5d4a-4e0b-9c7a-1a2b3c4d5e6f";
     clock := Qmake 17622180005 10 |}.

(** A backend that answers 200 with an empty object. *)
Definition empty_reply : World :=
  {| backend := fun _ =>
       Replied {| hx_status_code := 200; hx_text := "{}";
                  hx_json := inr (JDict ∅) |};
     uuid4 := "3f2b8c1e-5d4a-4e0b-9c7a-1a2b3c4d5e6f";
     clock := Qmake 17622180005 10 |}.

(** A backend whose message has no role. *)
Definition no_role : World :=
  {| backend := fun _ =>
       Replied {| hx_status_code := 200; hx_text := "{...}";
                  hx_json :=
                    inr (JDict {["message" :=
                           JDict {["content" := JStr "Hi there"]}]}) |};
     uuid4 := "3f2b8c1e-5d4a-4e0b-9c7a-1a2b3c4d5e6f";
     clock := Qmake 17622180005 10 |}.

(** What the handler makes of [request] and [answering]. *)
Definition answer : ChatCompletionResponse :=
  {| resp_id := "chatcmpl-3f2b8c1e-5d4a-4e0b-9c7a-1a2b3c4d5e6f";
     resp_object := "chat.completion";
     resp_created := 1762218000;
     resp_model := "llama2";
     resp_choices :=
       [ {| index := 0;
            message := {| role := "assistant"; content := "Hello!" |};
            finish_reason := "stop" |} ];
     resp_usage :=
       {| prompt_tokens := 4; completion_tokens := 1; total_tokens := 5 |} |}.

End Sample.


(** ** The spec's reading of the prompt text *)

(** The contents of the messages, in order, one after the other with
    nothing in between. *)
Definition concatenated_prompt_text (messages : list Message) : string :=
  fold_right (fun m acc => content m +:+ acc) "" messages.

(** * Properties *)

(** ** Strings and membership *)

Lemma append_empty_r (s : string) : s +:+ "" = s.
Proof.
  induction s as [|a s IHs]; [reflexivity |].
  change (String a s +:+ "") with (String a (s +:+ "")). by rewrite IHs.
Qed.

Lemma join_no_separator (parts : list string) :
  join "" parts = fold_right (fun s acc => s +:+ acc) "" parts.
Proof.
  induction parts as [|s [|s' rest] IH].
  - reflexivity.
  - simpl. by rewrite append_empty_r.
  - change (join "" (s :: s' :: rest)) with (s +:+ "" +:+ join "" (s' :: rest)).
    rewrite IH. reflexivity.
Qed.

Lemma join_contents (messages : list Message) :
  join "" (content <$> messages) = concatenated_prompt_text messages.
Proof.
  rewrite join_no_separator. unfold concatenated_prompt_text.
  induction messages as [|m ms IH]; [reflexivity |].
  cbn. f_equal. exact IH.
Qed.

Lemma str_in_elem_of (x : string) (l : list string) :
  str_in x l = true <-> x ∈ l.
Proof.
  unfold str_in. rewrite existsb_exists. split.
  - intros (y & Hy & Heq). apply String.eqb_eq in Heq. subst y.
    by apply list_elem_of_In.
  - intros Hx. exists x. split; [by apply list_elem_of_In | apply String.eqb_refl].
Qed.

Lemma str_in_not_elem_of (x : string) (l : list string) :
  str_in x l = false <-> x ∉ l.
Proof.
  rewrite <- str_in_elem_of. destruct (str_in x l); split; intros H; congruence.
Qed.

(** ** Request translation *)

Lemma options_num_predict (request : ChatCompletionRequest) :
  o_options (ollama_request request) !! "num_predict"
  = if truthy (py_int (req_max_tokens request))
    then Some (py_int (req_max_tokens request)) else None.
Proof.
  unfold ollama_request.
  destruct (truthy (py_int _)), (truthy (py_stop _)); simpl;
    by simplify_map_eq.
Qed.

Lemma options_stop (request : ChatCompletionRequest) :
  o_options (ollama_request request) !! "stop"
  = if truthy (py_stop (req_stop request))
    then Some (if is_list (py_stop (req_stop request))
               then py_stop (req_stop request)
               else JList [py_stop (req_stop request)])
    else None.
Proof.
  unfold ollama_request.
  destruct (truthy (py_int _)), (truthy (py_stop _)); simpl;
    by simplify_map_eq.
Qed.

(** The request value plays no part once its truth value is false. *)
Lemma ollama_request_falsy_stop (request : ChatCompletionRequest) :
  truthy (py_stop (req_stop request)) = false ->
  ollama_request request = ollama_request (with_stop None request).
Proof.
  intros Hf. unfold ollama_request. rewrite Hf. reflexivity.
Qed.

(** C7. Whatever the request holds, also in its own [stream] field, the
    request sent to the backend has [stream] false. *)
Theorem translated_stream_is_false (request : ChatCompletionRequest) :
  o_stream (ollama_request request) = false.
Proof.
  unfold ollama_request.
  destruct (truthy (py_int _)), (truthy (py_stop _)); reflexivity.
Qed.

(** The [stream] field of the request has no influence on the translation. *)
Lemma translation_ignores_stream (b : option bool) (request : ChatCompletionRequest) :
  ollama_request (with_stream b request) = ollama_request request.
Proof. reflexivity. Qed.

(** C3, as the code has it. A [max_tokens] that is present and not zero is
    copied to the option [num_predict]; when [max_tokens] is absent, or is
    zero, the options have no [num_predict] key. *)
Theorem num_predict_mirrors_nonzero_max_tokens (request : ChatCompletionRequest) :
  (forall n, req_max_tokens request = Some n -> n <> 0 ->
     o_options (ollama_request request) !! "num_predict" = Some (JInt n))
  /\ (req_max_tokens request = None \/ req_max_tokens request = Some 0 ->
     o_options (ollama_request request) !! "num_predict" = None).
Proof.
  rewrite options_num_predict. split.
  - intros n Hn Hnz. rewrite Hn. simpl.
    destruct (Z.eqb_spec n 0); [contradiction | reflexivity].
  - intros [Hn | Hn]; rewrite Hn; reflexivity.
Qed.

Lemma num_predict_mirrors_nonzero_max_tokens_witness :
  o_options (ollama_request (with_max_tokens (Some 256) Sample.request))
    !! "num_predict" = Some (JInt 256)
  /\ o_options (ollama_request (with_max_tokens None Sample.request))
    !! "num_predict" = None.
Proof.
  split.
  - apply (proj1 (num_predict_mirrors_nonzero_max_tokens
                    (with_max_tokens (Some 256) Sample.request)) 256);
      [reflexivity | lia].
  - apply (proj2 (num_predict_mirrors_nonzero_max_tokens
                    (with_max_tokens None Sample.request))).
    left. reflexivity.
Defined.

(** C3 as stated fails: with [max_tokens] present and equal to 0 the options
    carry no [num_predict] at all. *)
Lemma max_tokens_zero_has_no_num_predict :
  req_max_tokens (with_max_tokens (Some 0) Sample.request) = Some 0
  /\ o_options (ollama_request (with_max_tokens (Some 0) Sample.request))
       !! "num_predict" = None
  /\ o_options (ollama_request (with_max_tokens (Some 0) Sample.request))
       !! "num_predict" <> Some (JInt 0).
Proof.
  rewrite options_num_predict. simpl.
  split; [reflexivity | split; [reflexivity | discriminate]].
Qed.

(** C4, as the code has it. A [stop] that is a string other than [""]
    becomes the one-element list of that string; a [stop] that is a list
    other than [[]] is passed on as it is; an absent [stop] leaves the
    options without a [stop] key. *)
Theorem stop_is_normalized_when_nonempty (request : ChatCompletionRequest) :
  (forall s, req_stop request = Some (StopStr s) -> s <> "" ->
     o_options (ollama_request request) !! "stop" = Some (JList [JStr s]))
  /\ (forall l, req_stop request = Some (StopList l) -> l <> [] ->
     o_options (ollama_request request) !! "stop" = Some (JList (JStr <$> l)))
  /\ (req_stop request = None ->
     o_options (ollama_request request) !! "stop" = None).
Proof.
  rewrite options_stop. split; [|split].
  - intros s Hs Hne. rewrite Hs. destruct s; [contradiction | reflexivity].
  - intros l Hl Hne. rewrite Hl. destruct l; [contradiction | reflexivity].
  - intros Hs. rewrite Hs. reflexivity.
Qed.

Lemma stop_is_normalized_when_nonempty_witness :
  o_options (ollama_request (with_stop (Some (StopStr "END")) Sample.request))
    !! "stop" = Some (JList [JStr "END"])
  /\ o_options (ollama_request
                  (with_stop (Some (StopList ["END"; ""])) Sample.request))
    !! "stop" = Some (JList [JStr "END"; JStr ""])
  /\ o_options (ollama_request (with_stop None Sample.request)) !! "stop" = None.
Proof.
  split; [|split].
  - apply (proj1 (stop_is_normalized_when_nonempty
                    (with_stop (Some (StopStr "END")) Sample.request)) "END");
      [reflexivity | discriminate].
  - apply (proj1 (proj2 (stop_is_normalized_when_nonempty
                    (with_stop (Some (StopList ["END"; ""])) Sample.request)))
             ["END"; ""]); [reflexivity | discriminate].
  - apply (proj2 (proj2 (stop_is_normalized_when_nonempty
                    (with_stop None Sample.request)))).
    reflexivity.
Defined.

(** C4 as stated fails: with [stop] present as the single string [""] the
    options carry no [stop] list. *)
Lemma empty_string_stop_has_no_stop_list :
  req_stop (with_stop (Some (StopStr "")) Sample.request) = Some (StopStr "")
  /\ o_options (ollama_request (with_stop (Some (StopStr "")) Sample.request))
       !! "stop" = None
  /\ o_options (ollama_request (with_stop (Some (StopStr "")) Sample.request))
       !! "stop" <> Some (JList [JStr ""]).
Proof.
  rewrite options_stop. simpl.
  split; [reflexivity | split; [reflexivity | discriminate]].
Qed.

(** C10. A [stop] that is present but empty, [""] or [[]], leaves the
    options without a [stop] key, and the whole translated request is the
    one an absent [stop] gives. *)
Theorem empty_stop_is_as_absent (request : ChatCompletionRequest) :
  req_stop request = Some (StopStr "") \/ req_stop request = Some (StopList []) ->
  o_options (ollama_request request) !! "stop" = None
  /\ ollama_request request = ollama_request (with_stop None request).
Proof.
  intros H.
  assert (Hf : truthy (py_stop (req_stop request)) = false)
    by (destruct H as [-> | ->]; reflexivity).
  split.
  - rewrite options_stop, Hf. reflexivity.
  - by apply ollama_request_falsy_stop.
Qed.

Lemma empty_stop_is_as_absent_witness :
  (o_options (ollama_request (with_stop (Some (StopStr "")) Sample.request))
     !! "stop" = None
   /\ ollama_request (with_stop (Some (StopStr "")) Sample.request)
      = ollama_request
          (with_stop None (with_stop (Some (StopStr "")) Sample.request)))
  /\ (o_options (ollama_request (with_stop (Some (StopList [])) Sample.request))
     !! "stop" = None
   /\ ollama_request (with_stop (Some (StopList [])) Sample.request)
      = ollama_request
          (with_stop None (with_stop (Some (StopList [])) Sample.request))).
Proof.
  split.
  - apply (empty_stop_is_as_absent (with_stop (Some (StopStr "")) Sample.request)).
    left. reflexivity.
  - apply (empty_stop_is_as_absent (with_stop (Some (StopList [])) Sample.request)).
    right. reflexivity.
Defined.

(** ** The handler *)

(** The Python operations of the handler raise ordinary exceptions, never
    an [HTTPException]. *)
Lemma response_json_raises r e :
  response_json r = Raise e -> exists cls msg, e = Exception cls msg.
Proof. unfold response_json. destruct (hx_json r); intros [= <-]; eauto. Qed.

Lemma get_raises v key dflt e :
  get v key dflt = Raise e -> exists cls msg, e = Exception cls msg.
Proof. destruct v; simpl; intros [= <-]; eauto. Qed.

Lemma py_len_raises v e :
  py_len v = Raise e -> exists cls msg, e = Exception cls msg.
Proof. destruct v; simpl; intros [= <-]; eauto. Qed.

Lemma Message_new_raises text r c e :
  Message_new text r c = Raise e -> exists cls msg, e = Exception cls msg.
Proof. destruct r, c; simpl; intros [= <-]; eauto. Qed.

Section Handler.

Variable environ : gmap string string.
Variable validation_error : json -> json -> string.

Local Abbreviation handler := (create_chat_completion environ validation_error).
Local Abbreviation endpoint := (post_chat_completions environ validation_error).
Local Abbreviation the_call := (api_chat_call environ).

(** When the handler returns, the backend answered 200 with a body that
    decodes to a dict whose ["message"] holds text, exactly one call was
    added to the log, and the response is built as follows. *)
Lemma create_chat_completion_returns_inv w request token calls resp calls' :
  handler w request token calls = (Ok resp, calls') ->
  exists r v am msg,
    backend w (the_call request) = Replied r
    /\ hx_status_code r = 200
    /\ hx_json r = inr v
    /\ get v "message" (JDict ∅) = Ok am
    /\ get am "role" (JStr "assistant") = Ok (JStr (role msg))
    /\ get am "content" (JStr "") = Ok (JStr (content msg))
    /\ calls' = calls ++ [the_call request]
    /\ resp =
       {| resp_id := "chatcmpl-" +:+ uuid4 w;
          resp_object := "chat.completion";
          resp_created := int_of_float (clock w);
          resp_model := req_model request;
          resp_choices :=
            [ {| index := 0; message := msg; finish_reason := "stop" |} ];
          resp_usage :=
            {| prompt_tokens :=
                 floordiv (len (join "" (content <$> req_messages request))) 4;
               completion_tokens := floordiv (len (content msg)) 4;
               total_tokens :=
                 floordiv (len (join "" (content <$> req_messages request))) 4
                 + floordiv (len (content msg)) 4 |} |}.
Proof.
  unfold create_chat_completion, try_except, chat_completion_try, bind,
    client_post, response_json, lift, ret, raise.
  intros H.
  destruct (backend w (the_call request)) as [cls m | r] eqn:Hb;
    [discriminate H |].
  destruct (Z.eqb_spec (hx_status_code r) 200) as [Hs | Hs];
    simpl in H; [| discriminate H].
  destruct (hx_json r) as [m | v] eqn:Hj; [discriminate H |].
  destruct (get v "message" (JDict ∅)) as [am | e] eqn:Hm;
    [| destruct e; discriminate H].
  destruct (get am "content" (JStr "")) as [c | e] eqn:Hc;
    [| destruct e; discriminate H].
  destruct (py_len c) as [n | e] eqn:Hl; [| destruct e; discriminate H].
  destruct (get am "role" (JStr "assistant")) as [ro | e] eqn:Hr;
    [| destruct e; discriminate H].
  destruct ro as [| | | |ro| |]; try discriminate H;
    destruct c as [| | | |c| |]; try discriminate H.
  simpl in H, Hl. injection Hl as <-. injection H as <- <-.
  exists r, v, am, {| role := ro; content := c |}. simpl.
  repeat split; done.
Qed.

(** The handler does return on such a reply. *)
Lemma create_chat_completion_returns w request token calls r v am ro c :
  backend w (the_call request) = Replied r ->
  hx_status_code r = 200 ->
  hx_json r = inr v ->
  get v "message" (JDict ∅) = Ok am ->
  get am "role" (JStr "assistant") = Ok (JStr ro) ->
  get am "content" (JStr "") = Ok (JStr c) ->
  exists resp,
    handler w request token calls = (Ok resp, calls ++ [the_call request])
    /\ resp_choices resp =
       [ {| index := 0; message := {| role := ro; content := c |};
            finish_reason := "stop" |} ].
Proof.
  intros Hb Hs Hj Hm Hr Hc.
  unfold create_chat_completion, try_except, chat_completion_try, bind,
    client_post, response_json, lift, ret, raise.
  rewrite Hb, Hs, Hj. simpl. rewrite Hm, Hc. simpl. rewrite Hr. simpl.
  eexists. split; reflexivity.
Qed.

(** Whatever the handler raises is an [HTTPException] without headers,
    and its status is not 200. *)
Lemma create_chat_completion_raises_http w request token calls e calls' :
  handler w request token calls = (Raise e, calls') ->
  exists status_code detail,
    e = HTTPException status_code detail None /\ status_code <> 200.
Proof.
  unfold create_chat_completion, try_except.
  destruct (chat_completion_try _ _ _ _ _) as [[resp | e0] calls0] eqn:Ht;
    [discriminate |].
  destruct e0 as [sc d h | cls m]; simpl; intros [= <- <-].
  - revert Ht.
    unfold chat_completion_try, bind, client_post.
    destruct (backend w (the_call request)) as [cls m | r]; [discriminate |].
    destruct (Z.eqb_spec (hx_status_code r) 200) as [Hs | Hs]; simpl.
    + unfold lift, ret.
      destruct (response_json r) as [v | e] eqn:E1;
        [| apply response_json_raises in E1; by destruct E1 as (? & ? & ->)].
      destruct (get v "message" (JDict ∅)) as [am | e] eqn:E2;
        [| apply get_raises in E2; by destruct E2 as (? & ? & ->)].
      destruct (get am "content" (JStr "")) as [c | e] eqn:E3;
        [| apply get_raises in E3; by destruct E3 as (? & ? & ->)].
      destruct (py_len c) as [n | e] eqn:E4;
        [| apply py_len_raises in E4; by destruct E4 as (? & ? & ->)].
      destruct (get am "role" (JStr "assistant")) as [ro | e] eqn:E5;
        [| apply get_raises in E5; by destruct E5 as (? & ? & ->)].
      destruct (Message_new validation_error ro c) as [msg | e] eqn:E6;
        [discriminate |].
      apply Message_new_raises in E6. by destruct E6 as (? & ? & ->).
    + unfold raise. intros [= <- <- <- _]. eauto.
  - exists HTTP_500_INTERNAL_SERVER_ERROR. eexists.
    split; [reflexivity | discriminate].
Qed.

Lemma create_chat_completion_unreachable w request token calls cls msg :
  backend w (the_call request) = Unreachable cls msg ->
  handler w request token calls
  = (Raise (HTTPException HTTP_500_INTERNAL_SERVER_ERROR
              ("Error processing chat completion: " +:+ msg) None),
     calls ++ [the_call request]).
Proof.
  intros Hb.
  unfold create_chat_completion, try_except, chat_completion_try, bind,
    client_post.
  rewrite Hb. reflexivity.
Qed.

Lemma create_chat_completion_not_200 w request token calls r :
  backend w (the_call request) = Replied r ->
  hx_status_code r <> 200 ->
  handler w request token calls
  = (Raise (HTTPException (hx_status_code r)
              ("Ollama API error: " +:+ hx_text r) None),
     calls ++ [the_call request]).
Proof.
  intros Hb Hs.
  unfold create_chat_completion, try_except, chat_completion_try, bind,
    client_post.
  rewrite Hb. destruct (Z.eqb_spec (hx_status_code r) 200); [contradiction |].
  reflexivity.
Qed.

(** After a 200 from the backend, whatever goes wrong becomes the
    handler's 500. *)
Lemma create_chat_completion_200_raises w request token calls r e calls' :
  backend w (the_call request) = Replied r ->
  hx_status_code r = 200 ->
  handler w request token calls = (Raise e, calls') ->
  exists msg,
    e = HTTPException 500 ("Error processing chat completion: " +:+ msg) None.
Proof.
  intros Hb Hs.
  unfold create_chat_completion, try_except, chat_completion_try, bind,
    client_post.
  rewrite Hb, Hs. simpl. unfold lift, ret.
  destruct (response_json r) as [v | e0] eqn:E1;
    [| apply response_json_raises in E1; destruct E1 as (? & ? & ->);
       simpl; intros [= <- _]; eauto].
  destruct (get v "message" (JDict ∅)) as [am | e0] eqn:E2;
    [| apply get_raises in E2; destruct E2 as (? & ? & ->);
       simpl; intros [= <- _]; eauto].
  destruct (get am "content" (JStr "")) as [c | e0] eqn:E3;
    [| apply get_raises in E3; destruct E3 as (? & ? & ->);
       simpl; intros [= <- _]; eauto].
  destruct (py_len c) as [n | e0] eqn:E4;
    [| apply py_len_raises in E4; destruct E4 as (? & ? & ->);
       simpl; intros [= <- _]; eauto].
  destruct (get am "role" (JStr "assistant")) as [ro | e0] eqn:E5;
    [| apply get_raises in E5; destruct E5 as (? & ? & ->);
       simpl; intros [= <- _]; eauto].
  destruct (Message_new validation_error ro c) as [msg | e0] eqn:E6;
    [discriminate |].
  apply Message_new_raises in E6. destruct E6 as (? & ? & ->).
  simpl. intros [= <- _]. eauto.
Qed.

(** The handler makes its one call and no other. *)
Lemma create_chat_completion_calls w request token calls :
  (handler w request token calls).2 = calls ++ [the_call request].
Proof.
  destruct (backend w (the_call request)) as [cls m | r] eqn:Hb.
  - by rewrite (create_chat_completion_unreachable _ _ _ _ _ _ Hb).
  - destruct (decide (hx_status_code r = 200)) as [Hs | Hs];
      [| by rewrite (create_chat_completion_not_200 _ _ _ _ _ Hb Hs)].
    unfold create_chat_completion, try_except, chat_completion_try, bind,
      client_post.
    rewrite Hb, Hs. simpl. unfold lift, ret.
    destruct (response_json r) as [v | e]; [| by destruct e].
    destruct (get v "message" (JDict ∅)) as [am | e]; [| by destruct e].
    destruct (get am "content" (JStr "")) as [c | e]; [| by destruct e].
    destruct (py_len c) as [n | e]; [| by destruct e].
    destruct (get am "role" (JStr "assistant")) as [ro | e]; [| by destruct e].
    destruct (Message_new validation_error ro c) as [msg | e];
      [reflexivity | by destruct e].
Qed.

Lemma verify_token_accepts c :
  credentials c ∈ API_TOKENS environ ->
  verify_token environ c = Ok (credentials c).
Proof.
  intros Hin. unfold verify_token.
  apply str_in_elem_of in Hin. rewrite Hin. reflexivity.
Qed.

Lemma verify_token_refuses c :
  credentials c ∉ API_TOKENS environ ->
  verify_token environ c
  = Raise (HTTPException HTTP_401_UNAUTHORIZED "Invalid authentication token"
             (Some {["WWW-Authenticate" := "Bearer"]})).
Proof.
  intros Hin. unfold verify_token.
  apply str_in_not_elem_of in Hin. rewrite Hin. reflexivity.
Qed.



(** C1. A request whose bearer token is not one of the configured tokens
    is answered 401 with the header [WWW-Authenticate: Bearer]; the answer
    is the same for every request body and every backend, and no upstream
    call is made. *)
Theorem invalid_token_is_refused_before_any_call c :
  credentials c ∉ API_TOKENS environ ->
  forall w request,
    endpoint w c request
    = ({| status := 401;
          headers := {["WWW-Authenticate" := "Bearer"]};
          body := Some (JDict {["detail" :=
                                  JStr "Invalid authentication token"]}) |},
       []).
Proof.
  intros Hc w request. unfold post_chat_completions.
  rewrite (verify_token_refuses c Hc). reflexivity.
Qed.

(** C2. In every response the handler returns, [prompt_tokens] is the
    length of the concatenated message contents divided by 4, rounded
    down; [completion_tokens] is the length of the completion content,
    which is the content of the backend's message, divided by 4, rounded
    down; [total_tokens] is their sum. *)
Theorem usage_is_a_quarter_of_the_lengths w request token calls resp calls' :
  handler w request token calls = (Ok resp, calls') ->
  exists choice r v am,
    resp_choices resp = [choice]
    /\ backend w (the_call request) = Replied r
    /\ hx_json r = inr v
    /\ get v "message" (JDict ∅) = Ok am
    /\ get am "content" (JStr "") = Ok (JStr (content (message choice)))
    /\ prompt_tokens (resp_usage resp)
       = len (concatenated_prompt_text (req_messages request)) / 4
    /\ completion_tokens (resp_usage resp)
       = len (content (message choice)) / 4
    /\ total_tokens (resp_usage resp)
       = prompt_tokens (resp_usage resp) + completion_tokens (resp_usage resp).
Proof.
  intros H. apply create_chat_completion_returns_inv in H.
  destruct H as (r & v & am & msg & Hb & _ & Hj & Hm & _ & Hc & _ & ->).
  exists {| index := 0; message := msg; finish_reason := "stop" |}, r, v, am.
  simpl. rewrite join_contents. unfold floordiv. repeat split; done.
Qed.

(** C8. The [model] of a returned response is the [model] of the request,
    whatever the backend replied. *)
Theorem response_model_is_request_model w request token calls resp calls' :
  handler w request token calls = (Ok resp, calls') ->
  resp_model resp = req_model request.
Proof.
  intros H. apply create_chat_completion_returns_inv in H.
  destruct H as (r & v & am & msg & _ & _ & _ & _ & _ & _ & _ & ->).
  reflexivity.
Qed.

(** C9. A returned response has exactly one choice, and its
    [finish_reason] is ["stop"], whatever the backend replied. *)
Theorem one_choice_with_finish_reason_stop w request token calls resp calls' :
  handler w request token calls = (Ok resp, calls') ->
  length (resp_choices resp) = 1%nat
  /\ exists choice, resp_choices resp = [choice] /\ finish_reason choice = "stop".
Proof.
  intros H. apply create_chat_completion_returns_inv in H.
  destruct H as (r & v & am & msg & _ & _ & _ & _ & _ & _ & _ & ->).
  simpl. eauto.
Qed.

(** C5, as the code has it. With an accepted token: when the upstream call
    fails to connect or times out, the answer is the handler's generic 500
    with the detail ["Error processing chat completion: "] followed by the
    text of the error; when the backend replies with a status other than
    200, the handler raises an [HTTPException] with that status and the
    detail ["Ollama API error: "] followed by the backend's body text, so
    the answer carries that status and the body [{detail: that text}],
    except for a status that admits no body (below 200, 204, 205, 304),
    which is answered without one. In both cases exactly one upstream call
    was made. *)
Theorem upstream_failures_as_answered w c request :
  credentials c ∈ API_TOKENS environ ->
  (forall cls msg,
     backend w (the_call request) = Unreachable cls msg ->
     exists resp,
       endpoint w c request = (resp, [the_call request])
       /\ status resp = 500
       /\ body resp
          = Some (JDict {["detail" :=
                JStr ("Error processing chat completion: " +:+ msg)]}))
  /\ (forall r,
     backend w (the_call request) = Replied r ->
     hx_status_code r <> 200 ->
     handler w request (credentials c) []
     = (Raise (HTTPException (hx_status_code r)
                 ("Ollama API error: " +:+ hx_text r) None),
        [the_call request])
     /\ exists resp,
          endpoint w c request = (resp, [the_call request])
          /\ status resp = hx_status_code r
          /\ body resp
             = if is_body_allowed_for_status_code (hx_status_code r)
               then Some (JDict {["detail" :=
                      JStr ("Ollama API error: " +:+ hx_text r)]})
               else None).
Proof.
  intros Hc. unfold post_chat_completions.
  rewrite (verify_token_accepts c Hc). split.
  - intros cls msg Hb.
    rewrite (create_chat_completion_unreachable _ _ _ _ _ _ Hb).
    eexists. split; [reflexivity | split; reflexivity].
  - intros r Hb Hs.
    rewrite (create_chat_completion_not_200 _ _ _ _ _ Hb Hs).
    split; [reflexivity |].
    eexists. split; [reflexivity | split; reflexivity].
Qed.


End Handler.

(** ** The properties on the sample requests *)

Lemma sample_handler_returns :
  create_chat_completion Sample.env Sample.no_text Sample.answering
    Sample.request "test-token" []
  = (Ok Sample.answer, [api_chat_call Sample.env Sample.request]).
Proof. vm_compute. reflexivity. Qed.

Lemma sample_good_token : credentials Sample.good ∈ API_TOKENS Sample.env.
Proof. apply str_in_elem_of. reflexivity. Qed.

Lemma sample_bad_token : credentials Sample.bad ∉ API_TOKENS Sample.env.
Proof. apply str_in_not_elem_of. reflexivity. Qed.

Lemma invalid_token_is_refused_before_any_call_witness :
  credentials Sample.bad ∉ API_TOKENS Sample.env
  /\ post_chat_completions Sample.env Sample.no_text Sample.answering
       Sample.bad Sample.request
     = ({| status := 401;
           headers := {["WWW-Authenticate" := "Bearer"]};
           body := Some (JDict {["detail" :=
                                   JStr "Invalid authentication token"]}) |},
        []).
Proof.
  split.
  - exact sample_bad_token.
  - apply (invalid_token_is_refused_before_any_call Sample.env Sample.no_text
             Sample.bad sample_bad_token Sample.answering Sample.request).
Defined.

Lemma usage_is_a_quarter_of_the_lengths_witness :
  exists choice r v am,
    resp_choices Sample.answer = [choice]
    /\ backend Sample.answering (api_chat_call Sample.env Sample.request)
       = Replied r
    /\ hx_json r = inr v
    /\ get v "message" (JDict ∅) = Ok am
    /\ get am "content" (JStr "") = Ok (JStr (content (message choice)))
    /\ prompt_tokens (resp_usage Sample.answer)
       = len (concatenated_prompt_text (req_messages Sample.request)) / 4
    /\ completion_tokens (resp_usage Sample.answer)
       = len (content (message choice)) / 4
    /\ total_tokens (resp_usage Sample.answer)
       = prompt_tokens (resp_usage Sample.answer)
         + completion_tokens (resp_usage Sample.answer).
Proof.
  apply (usage_is_a_quarter_of_the_lengths Sample.env Sample.no_text
           Sample.answering Sample.request "test-token" [] Sample.answer
           [api_chat_call Sample.env Sample.request]).
  vm_compute. reflexivity.
Defined.

Lemma response_model_is_request_model_witness :
  resp_model Sample.answer = req_model Sample.request.
Proof.
  apply (response_model_is_request_model Sample.env Sample.no_text
           Sample.answering Sample.request "test-token" [] Sample.answer
           [api_chat_call Sample.env Sample.request]).
  vm_compute. reflexivity.
Defined.

Lemma one_choice_with_finish_reason_stop_witness :
  length (resp_choices Sample.answer) = 1%nat
  /\ exists choice,
       resp_choices Sample.answer = [choice] /\ finish_reason choice = "stop".
Proof.
  apply (one_choice_with_finish_reason_stop Sample.env Sample.no_text
           Sample.answering Sample.request "test-token" [] Sample.answer
           [api_chat_call Sample.env Sample.request]).
  vm_compute. reflexivity.
Defined.

Lemma upstream_failures_as_answered_witness :
  (exists resp,
     post_chat_completions Sample.env Sample.no_text Sample.down Sample.good
       Sample.request
     = (resp, [api_chat_call Sample.env Sample.request])
     /\ status resp = 500
     /\ body resp
        = Some (JDict {["detail" :=
              JStr ("Error processing chat completion: "
                    +:+ "All connection attempts failed")]}))
  /\ (exists resp,
     post_chat_completions Sample.env Sample.no_text Sample.missing_model
       Sample.good Sample.request
     = (resp, [api_chat_call Sample.env Sample.request])
     /\ status resp = 404
     /\ body resp
        = Some (JDict {["detail" :=
              JStr ("Ollama API error: " +:+ "model not found")]}))
  /\ (exists resp,
     post_chat_completions Sample.env Sample.no_text Sample.no_content
       Sample.good Sample.request
     = (resp, [api_chat_call Sample.env Sample.request])
     /\ status resp = 204
     /\ body resp = None).
Proof.
  split; [| split].
  - apply (proj1 (upstream_failures_as_answered Sample.env Sample.no_text
                    Sample.down Sample.good Sample.request sample_good_token)
             "ConnectError" "All connection attempts failed").
    reflexivity.
  - apply (proj2 (upstream_failures_as_answered Sample.env Sample.no_text
                    Sample.missing_model Sample.good Sample.request
                    sample_good_token)
             {| hx_status_code := 404; hx_text := "model not found";
                hx_json := inr (JDict {["error" := JStr "model not found"]}) |}).
    + reflexivity.
    + simpl. lia.
  - apply (proj2 (upstream_failures_as_answered Sample.env Sample.no_text
                    Sample.no_content Sample.good Sample.request
                    sample_good_token)
             {| hx_status_code := 204; hx_text := "";
                hx_json := inl "Expecting value: line 1 column 1 (char 0)" |}).
    + reflexivity.
    + simpl. lia.
Defined.

(** C5 as stated fails: with the backend unreachable the answer is a 500,
    neither 502 nor 504. *)
Lemma unreachable_backend_is_answered_500 :
  credentials Sample.good ∈ API_TOKENS Sample.env
  /\ backend Sample.down (api_chat_call Sample.env Sample.request)
     = Unreachable "ConnectError" "All connection attempts failed"
  /\ status (post_chat_completions Sample.env Sample.no_text Sample.down
               Sample.good Sample.request).1 = 500
  /\ ~ (status (post_chat_completions Sample.env Sample.no_text Sample.down
                  Sample.good Sample.request).1 = 502
        \/ status (post_chat_completions Sample.env Sample.no_text Sample.down
                     Sample.good Sample.request).1 = 504).
Proof.
  split; [exact sample_good_token | split; [reflexivity | ]].
  assert (H : status (post_chat_completions Sample.env Sample.no_text
                        Sample.down Sample.good Sample.request).1 = 500)
    by (vm_compute; reflexivity).
  split; [exact H |]. rewrite H. intros [? | ?]; discriminate.
Qed.




(** * Further properties of the code *)

(** ** [split] and [join] *)

Lemma split_go_acc (sep : ascii) (s cur : string) :
  split_go sep cur s
  = match split sep s with
    | x :: rest => String.rev_app cur x :: rest
    | [] => []
    end.
Proof.
  unfold split. revert cur.
  induction s as [|c s IH]; intros cur; [reflexivity |].
  simpl. destruct (Ascii.eqb c sep); [reflexivity |].
  rewrite (IH (String c cur)), (IH (String c "")).
  destruct (split_go sep "" s); reflexivity.
Qed.

Lemma split_nil (sep : ascii) : split sep "" = [""].
Proof. reflexivity. Qed.

Lemma split_cons (sep c : ascii) (s : string) :
  split sep (String c s)
  = if Ascii.eqb c sep then "" :: split sep s
    else match split sep s with
         | x :: rest => String c x :: rest
         | [] => []
         end.
Proof.
  unfold split at 1. simpl. destruct (Ascii.eqb c sep); [reflexivity |].
  rewrite split_go_acc. destruct (split sep s); reflexivity.
Qed.

Lemma split_not_nil (sep : ascii) (s : string) : split sep s <> [].
Proof.
  induction s as [|c s IH]; [discriminate |].
  rewrite split_cons. destruct (Ascii.eqb c sep); [discriminate |].
  destruct (split sep s); [contradiction | discriminate].
Qed.

Lemma join_cons2 (sep x y : string) (l : list string) :
  join sep (x :: y :: l) = x +:+ sep +:+ join sep (y :: l).
Proof. reflexivity. Qed.

Lemma join_split (sep : ascii) (s : string) :
  join (String sep "") (split sep s) = s.
Proof.
  induction s as [|c s IH]; [reflexivity |].
  rewrite split_cons. destruct (Ascii.eqb_spec c sep) as [-> | Hc].
  - pose proof (split_not_nil sep s) as Hne.
    destruct (split sep s) as [|y l]; [contradiction |].
    rewrite join_cons2, IH. reflexivity.
  - pose proof (split_not_nil sep s) as Hne.
    destruct (split sep s) as [|x [|y l]].
    + contradiction.
    + simpl in *. by rewrite IH.
    + rewrite join_cons2 in *. rewrite <- IH. reflexivity.
Qed.

Lemma split_pieces_without_sep (sep : ascii) (s p : string) :
  p ∈ split sep s -> contains sep p = false.
Proof.
  revert p. induction s as [|c s IH]; intros p.
  - rewrite split_nil. intros ->%list_elem_of_singleton. reflexivity.
  - rewrite split_cons. destruct (Ascii.eqb c sep) eqn:Hc.
    + intros [-> | Hp]%elem_of_cons; [reflexivity | by apply IH].
    + destruct (split sep s) as [|x l]; [by intros ?%elem_of_nil |].
      intros [-> | Hp]%elem_of_cons.
      * simpl. rewrite Hc. apply IH. by left.
      * apply IH. by right.
Qed.

Lemma split_app_sep (sep : ascii) (x rest : string) :
  contains sep x = false ->
  split sep (x +:+ String sep rest) = x :: split sep rest.
Proof.
  induction x as [|c x IH]; intros Hx.
  - change ("" +:+ String sep rest) with (String sep rest).
    rewrite split_cons, Ascii.eqb_refl. reflexivity.
  - simpl in Hx. apply orb_false_elim in Hx as [Hc Hx].
    change (String c x +:+ String sep rest)
      with (String c (x +:+ String sep rest)).
    rewrite split_cons, Hc, (IH Hx). reflexivity.
Qed.

Lemma split_without_sep (sep : ascii) (x : string) :
  contains sep x = false -> split sep x = [x].
Proof.
  induction x as [|c x IH]; intros Hx; [reflexivity |].
  simpl in Hx. apply orb_false_elim in Hx as [Hc Hx].
  rewrite split_cons, Hc, (IH Hx). reflexivity.
Qed.

Lemma split_join_snoc (sep : ascii) (l : list string) (t : string) :
  (forall p, p ∈ l -> contains sep p = false) ->
  split sep (join (String sep "") (l ++ [t])) = l ++ split sep t.
Proof.
  induction l as [|x l IH]; intros Hl; [reflexivity |].
  assert (Hx : contains sep x = false) by (apply Hl; by left).
  assert (Hl' : forall p, p ∈ l -> contains sep p = false)
    by (intros p Hp; apply Hl; by right).
  change ((x :: l) ++ [t]) with (x :: (l ++ [t])).
  destruct (l ++ [t]) as [|y r] eqn:E; [by destruct l |].
  rewrite join_cons2.
  change (x +:+ String sep "" +:+ join (String sep "") (y :: r))
    with (x +:+ String sep (join (String sep "") (y :: r))).
  rewrite (split_app_sep _ _ _ Hx), (IH Hl'). reflexivity.
Qed.

Lemma append_assoc (a b c : string) : (a +:+ b) +:+ c = a +:+ (b +:+ c).
Proof.
  induction a as [|x a IH]; [reflexivity |].
  change (String x ((a +:+ b) +:+ c) = String x (a +:+ (b +:+ c))).
  by rewrite IH.
Qed.

Lemma join_snoc (sep x t : string) (l : list string) :
  join sep ((x :: l) ++ [t]) = join sep (x :: l) +:+ sep +:+ t.
Proof.
  revert x. induction l as [|y l IH]; intros x; [reflexivity |].
  change ((x :: y :: l) ++ [t]) with (x :: ((y :: l) ++ [t])).
  change (join sep (x :: (y :: l) ++ [t]))
    with (x +:+ sep +:+ join sep ((y :: l) ++ [t])).
  rewrite IH, (join_cons2 sep x y l), !append_assoc. reflexivity.
Qed.

Lemma forallb_without_sep (sep : ascii) (l : list string) :
  forallb (fun p => negb (contains sep p)) l = true
  <-> forall p, p ∈ l -> contains sep p = false.
Proof.
  rewrite forallb_forall. split; intros H p Hp.
  - apply list_elem_of_In, H in Hp. by destruct (contains sep p).
  - apply list_elem_of_In, H in Hp. by rewrite Hp.
Qed.

(** X1. Splitting a string at a separator loses nothing: joining the
    pieces with the separator gives the string back; there is always at
    least one piece, and no piece contains the separator. *)
Theorem join_of_split_gives_back (sep : ascii) (s : string) :
  join (String sep "") (split sep s) = s
  /\ (exists x rest, split sep s = x :: rest)
  /\ forallb (fun p => negb (contains sep p)) (split sep s) = true.
Proof.
  split; [apply join_split | split].
  - pose proof (split_not_nil sep s). destruct (split sep s); [done | eauto].
  - apply forallb_without_sep, split_pieces_without_sep.
Qed.

(** X2. Joining a non-empty list of separator-free strings and splitting
    the result gives the list back. *)
Theorem split_of_join_gives_back (sep : ascii) (x : string) (l : list string) :
  forallb (fun p => negb (contains sep p)) (x :: l) = true ->
  split sep (join (String sep "") (x :: l)) = x :: l.
Proof.
  intros H0. pose proof (proj1 (forallb_without_sep sep (x :: l)) H0) as H.
  clear H0. destruct (list_eq_nil_dec l) as [-> | Hne].
  - simpl. apply split_without_sep, H. by left.
  - destruct (exists_last Hne) as (l' & t & ->).
    change (x :: (l' ++ [t])) with ((x :: l') ++ [t]) in *.
    rewrite split_join_snoc.
    + rewrite split_without_sep; [reflexivity |].
      apply H, elem_of_app. right. by left.
    + intros p Hp. apply H, elem_of_app. by left.
Qed.

Lemma split_of_join_gives_back_witness :
  split "," (join "," ["alpha"; ""; "beta"]) = ["alpha"; ""; "beta"].
Proof.
  apply (split_of_join_gives_back "," "alpha" [""; "beta"]). reflexivity.
Defined.

(** ** [run_api.py]: adding a token *)

(** The pieces [add_token] appends to the token list. *)
Lemma add_token_tokens (current_tokens : string) (api_token : option string) :
  split "," (add_token current_tokens api_token)
  = split "," current_tokens
    ++ match api_token with
       | Some t =>
           if truthy (JStr t) && negb (str_in t (split "," current_tokens))
           then split "," t else []
       | None => []
       end.
Proof.
  unfold add_token. destruct api_token as [t|]; [| by rewrite app_nil_r].
  simpl. destruct (negb (t =? "")%string); simpl; [| by rewrite app_nil_r].
  destruct (negb (str_in t (split "," current_tokens)));
    [| by rewrite app_nil_r].
  apply split_join_snoc. intros p. apply split_pieces_without_sep.
Qed.

Lemma contains_not_in_split (sep : ascii) (t s : string) :
  contains sep t = true -> t ∉ split sep s.
Proof.
  intros Ht Hin. apply split_pieces_without_sep in Hin. congruence.
Qed.

Lemma add_token_present_or_empty (current_tokens t : string) :
  t = "" \/ t ∈ split "," current_tokens ->
  add_token current_tokens (Some t) = current_tokens.
Proof.
  unfold add_token. intros [-> | Hin]; [reflexivity |].
  apply str_in_elem_of in Hin. rewrite Hin. simpl.
  by destruct (negb (t =? "")%string).
Qed.

Lemma add_token_fresh (current_tokens t : string) :
  t <> "" -> t ∉ split "," current_tokens ->
  add_token current_tokens (Some t) = current_tokens +:+ "," +:+ t.
Proof.
  intros Hne Hnin. unfold add_token. simpl.
  destruct (String.eqb_spec t ""); [contradiction |]. simpl.
  apply str_in_not_elem_of in Hnin. rewrite Hnin. simpl.
  pose proof (join_split "," current_tokens) as Hj.
  pose proof (split_not_nil "," current_tokens) as Hnil.
  destruct (split "," current_tokens) as [|x l]; [contradiction |].
  rewrite join_snoc, Hj. reflexivity.
Qed.

Lemma verify_token_Ok_iff
    (environ : gmap string string) (c : HTTPAuthorizationCredentials)
    (t : string) :
  verify_token environ c = Ok t
  <-> t = credentials c /\ credentials c ∈ API_TOKENS environ.
Proof.
  unfold verify_token.
  destruct (str_in (credentials c) (API_TOKENS environ)) eqn:E; simpl.
  - apply str_in_elem_of in E. split; [intros [= <-] | intros [-> _]]; done.
  - apply str_in_not_elem_of in E. split; [discriminate | intros [_ H]; done].
Qed.

(** X3. [verify_token] returns exactly when the presented credential is one
    of the configured tokens, and then returns that credential. *)
Theorem verify_token_accepts_exactly_the_listed
    (environ : gmap string string) (c : HTTPAuthorizationCredentials)
    (t : string) :
  verify_token environ c = Ok t
  <-> t = credentials c /\ credentials c ∈ API_TOKENS environ.
Proof. apply verify_token_Ok_iff. Qed.

Lemma verify_token_accepts_exactly_the_listed_witness :
  verify_token (<["API_TOKENS" := "alpha,beta"]> ∅)
    {| scheme := "Bearer"; credentials := "beta" |} = Ok "beta".
Proof.
  apply (proj2 (verify_token_accepts_exactly_the_listed
                  (<["API_TOKENS" := "alpha,beta"]> ∅)
                  {| scheme := "Bearer"; credentials := "beta" |} "beta")).
  split; [reflexivity |]. apply str_in_elem_of. reflexivity.
Defined.

(** X4. When [API_TOKENS] is not set in the environment, the one accepted
    credential is ["test-token"]. *)
Theorem unset_tokens_accept_only_test_token
    (environ : gmap string string) (c : HTTPAuthorizationCredentials) :
  environ !! "API_TOKENS" = None ->
  (verify_token environ c = Ok (credentials c)
   <-> credentials c = "test-token").
Proof.
  intros Hnone. rewrite verify_token_Ok_iff.
  unfold API_TOKENS, environ_get. rewrite Hnone.
  change (split "," "test-token") with ["test-token"].
  rewrite list_elem_of_singleton. intuition.
Qed.

Lemma unset_tokens_accept_only_test_token_witness :
  verify_token ∅ {| scheme := "Bearer"; credentials := "test-token" |}
  = Ok "test-token".
Proof.
  apply (proj2 (unset_tokens_accept_only_test_token ∅
                  {| scheme := "Bearer"; credentials := "test-token" |}
                  (lookup_empty _))).
  reflexivity.
Defined.

(** X5. [update_env_file] never fails on its final [split(",")[0]], and
    the token it returns is the first token that was configured before,
    whatever token or base URL was passed. *)
Theorem update_env_file_returns_first_token
    (environ : gmap string string) (api_token ollama_api_base : option string) :
  env_result (update_env_file environ api_token ollama_api_base)
  = first_item (API_TOKENS environ)
  /\ exists t rest,
       API_TOKENS environ = t :: rest
       /\ env_result (update_env_file environ api_token ollama_api_base) = Ok t.
Proof.
  unfold update_env_file. simpl. rewrite add_token_tokens.
  fold (API_TOKENS environ).
  pose proof (split_not_nil "," (environ_get environ "API_TOKENS" "test-token"))
    as Hnil.
  fold (API_TOKENS environ) in Hnil.
  destruct (API_TOKENS environ) as [|t rest]; [contradiction |].
  simpl. eauto.
Qed.

(** X6. A non-empty token without a comma that [update_env_file] has added
    is accepted by [verify_token] once the new [API_TOKENS] value is in the
    environment, and every credential accepted before is still accepted. *)
Theorem added_token_is_accepted_afterwards
    (environ environ' : gmap string string) (t sch : string) :
  t <> "" ->
  contains "," t = false ->
  environ' !! "API_TOKENS"
  = Some (add_token (environ_get environ "API_TOKENS" "test-token") (Some t)) ->
  verify_token environ' {| scheme := sch; credentials := t |} = Ok t
  /\ forall c, verify_token environ c = Ok (credentials c) ->
               verify_token environ' c = Ok (credentials c).
Proof.
  intros Hne Hcomma Henv.
  assert (Htok : API_TOKENS environ'
                 = API_TOKENS environ
                   ++ (if negb (str_in t (API_TOKENS environ)) then [t] else [])).
  { unfold API_TOKENS at 1. unfold environ_get at 1. rewrite Henv.
    rewrite add_token_tokens. fold (API_TOKENS environ). simpl.
    destruct (String.eqb_spec t ""); [contradiction |]. simpl.
    rewrite (split_without_sep _ _ Hcomma). reflexivity. }
  split.
  - apply verify_token_Ok_iff. split; [reflexivity |].
    simpl. rewrite Htok. apply elem_of_app.
    destruct (str_in t (API_TOKENS environ)) eqn:E; simpl.
    + left. by apply str_in_elem_of.
    + right. by left.
  - intros c Hc. apply verify_token_Ok_iff in Hc as [_ Hc].
    apply verify_token_Ok_iff. split; [reflexivity |].
    rewrite Htok. apply elem_of_app. by left.
Qed.

Lemma added_token_is_accepted_afterwards_witness :
  verify_token (<["API_TOKENS" := "test-token,s3cret"]> ∅)
    {| scheme := "Bearer"; credentials := "s3cret" |} = Ok "s3cret"
  /\ forall c, verify_token ∅ c = Ok (credentials c) ->
               verify_token (<["API_TOKENS" := "test-token,s3cret"]> ∅) c
               = Ok (credentials c).
Proof.
  apply (added_token_is_accepted_afterwards ∅
           (<["API_TOKENS" := "test-token,s3cret"]> ∅) "s3cret" "Bearer").
  - discriminate.
  - reflexivity.
  - reflexivity.
Defined.

(** X7. A token that contains a comma is never found in the token list:
    [update_env_file] appends it to the configured string on every run, and
    even then it is not one of the tokens [split] yields. *)
Theorem token_with_comma_is_always_appended (current_tokens t : string) :
  contains "," t = true ->
  add_token current_tokens (Some t) = current_tokens +:+ "," +:+ t
  /\ t ∉ split "," (add_token current_tokens (Some t)).
Proof.
  intros Hc. split.
  - apply add_token_fresh; [by intros -> | by apply contains_not_in_split].
  - by apply contains_not_in_split.
Qed.

Lemma token_with_comma_is_always_appended_witness :
  add_token "test-token,a,b" (Some "a,b") = "test-token,a,b" +:+ "," +:+ "a,b"
  /\ "a,b" ∉ split "," (add_token "test-token,a,b" (Some "a,b")).
Proof.
  apply (token_with_comma_is_always_appended "test-token,a,b" "a,b").
  reflexivity.
Defined.

(** X8. Adding a comma-free token a second time changes nothing: the
    string [update_env_file] writes is the same after one run and after
    two. *)
Theorem adding_a_token_twice_changes_nothing (current_tokens t : string) :
  contains "," t = false ->
  add_token (add_token current_tokens (Some t)) (Some t)
  = add_token current_tokens (Some t).
Proof.
  intros Hc. apply add_token_present_or_empty.
  destruct (String.eqb_spec t "") as [-> | Hne]; [by left | right].
  rewrite add_token_tokens. simpl.
  destruct (String.eqb_spec t ""); [contradiction |]. simpl.
  apply elem_of_app.
  destruct (str_in t (split "," current_tokens)) eqn:E; simpl.
  - left. by apply str_in_elem_of.
  - right. rewrite (split_without_sep _ _ Hc). by left.
Qed.

Lemma adding_a_token_twice_changes_nothing_witness :
  add_token (add_token "test-token" (Some "s3cret")) (Some "s3cret")
  = add_token "test-token" (Some "s3cret").
Proof.
  apply (adding_a_token_twice_changes_nothing "test-token" "s3cret").
  reflexivity.
Defined.

(** ** More on the request translation *)

Lemma ollama_request_model_and_messages (request : ChatCompletionRequest) :
  o_model (ollama_request request) = req_model request
  /\ o_messages (ollama_request request) = req_messages request
  /\ o_stream (ollama_request request) = false.
Proof.
  unfold ollama_request.
  destruct (truthy (py_int _)), (truthy (py_stop _)); simpl;
    (split; [reflexivity | split; [| reflexivity]]);
    (induction (req_messages request) as [|[ro co] ms IH];
       [reflexivity | cbn; f_equal; exact IH]).
Qed.

(** X9. The translated request carries the model name and the messages of
    the request unchanged: same messages, same order, same roles and
    contents. *)
Theorem translation_copies_model_and_messages (request : ChatCompletionRequest) :
  o_model (ollama_request request) = req_model request
  /\ o_messages (ollama_request request) = req_messages request.
Proof.
  destruct (ollama_request_model_and_messages request) as (Hm & Hms & _).
  by split.
Qed.

(** X10. The options always hold [temperature] and [top_p] with the values
    of the request ([None] included, sent as null), and never a key other
    than [temperature], [top_p], [num_predict] and [stop]. *)
Theorem options_hold_sampling_fields_and_four_keys_at_most
    (request : ChatCompletionRequest) :
  o_options (ollama_request request) !! "temperature"
  = Some (py_float (req_temperature request))
  /\ o_options (ollama_request request) !! "top_p"
     = Some (py_float (req_top_p request))
  /\ dom (o_options (ollama_request request))
     ⊆ ({["temperature"; "top_p"; "num_predict"; "stop"]} : gset string).
Proof.
  unfold ollama_request.
  destruct (truthy (py_int _)), (truthy (py_stop _)); simpl;
    (split; [by simplify_map_eq | split; [by simplify_map_eq |]]);
    rewrite ?dom_insert_L, dom_empty_L; set_unfold; intuition.
Qed.

(** X11. The fields [n], [stream], [presence_penalty], [frequency_penalty]
    and [user] play no part: two requests that agree on the model, the
    messages, the temperature, [top_p], [max_tokens] and [stop] are
    translated to the same backend request. *)
Theorem translation_ignores_unused_fields (r1 r2 : ChatCompletionRequest) :
  req_model r1 = req_model r2 ->
  req_messages r1 = req_messages r2 ->
  req_temperature r1 = req_temperature r2 ->
  req_top_p r1 = req_top_p r2 ->
  req_max_tokens r1 = req_max_tokens r2 ->
  req_stop r1 = req_stop r2 ->
  ollama_request r1 = ollama_request r2.
Proof.
  intros Hm Hms Ht Hp Hx Hs. unfold ollama_request.
  rewrite Hm, Hms, Ht, Hp, Hx, Hs. reflexivity.
Qed.

Lemma translation_ignores_unused_fields_witness :
  ollama_request
    {| req_model := "llama2";
       req_messages := [ {| role := "user"; content := "Hi" |} ];
       req_temperature := Some (Qmake 7 10); req_top_p := Some (Qmake 1 1);
       req_n := Some 3; req_max_tokens := Some 64; req_stream := Some true;
       req_stop := Some (StopStr "END");
       req_presence_penalty := Some (Qmake 1 2);
       req_frequency_penalty := Some (Qmake 1 2);
       req_user := Some "alice" |}
  = ollama_request
      {| req_model := "llama2";
         req_messages := [ {| role := "user"; content := "Hi" |} ];
         req_temperature := Some (Qmake 7 10); req_top_p := Some (Qmake 1 1);
         req_n := None; req_max_tokens := Some 64; req_stream := None;
         req_stop := Some (StopStr "END");
         req_presence_penalty := None;
         req_frequency_penalty := None;
         req_user := None |}.
Proof.
  apply translation_ignores_unused_fields; reflexivity.
Defined.

(** ** More on the handler *)

Lemma length_append (a b : string) :
  String.length (a +:+ b) = (String.length a + String.length b)%nat.
Proof.
  induction a as [|x a IH]; [reflexivity |].
  change (S (String.length (a +:+ b))
          = S (String.length a + String.length b)%nat).
  by rewrite IH.
Qed.

Lemma len_concatenated (messages : list Message) :
  len (concatenated_prompt_text messages)
  = fold_right (fun m acc => len (content m) + acc) 0 messages.
Proof.
  unfold len. induction messages as [|m ms IH]; [reflexivity |].
  change (concatenated_prompt_text (m :: ms))
    with (content m +:+ concatenated_prompt_text ms).
  rewrite length_append, Nat2Z.inj_add, IH. reflexivity.
Qed.

Lemma sum_len_nonneg (messages : list Message) :
  0 <= fold_right (fun m acc => len (content m) + acc) 0 messages.
Proof.
  induction messages as [|m ms IH]; simpl; [lia | unfold len in *; lia].
Qed.

Section HandlerMore.

Variable environ : gmap string string.
Variable validation_error : json -> json -> string.

Local Abbreviation handler := (create_chat_completion environ validation_error).
Local Abbreviation endpoint := (post_chat_completions environ validation_error).
Local Abbreviation the_call := (api_chat_call environ).

(** X12. The handler returns a response exactly when the backend answered
    200 with a body that decodes to a dict whose [message] (an empty dict
    when missing) is a dict whose [role] (["assistant"] when missing) and
    [content] ([""] when missing) are strings. *)
Theorem handler_returns_exactly_on_a_well_formed_200 w request token calls :
  (exists resp calls', handler w request token calls = (Ok resp, calls'))
  <-> (exists r v am ro c,
         backend w (the_call request) = Replied r
         /\ hx_status_code r = 200
         /\ hx_json r = inr v
         /\ get v "message" (JDict ∅) = Ok am
         /\ get am "role" (JStr "assistant") = Ok (JStr ro)
         /\ get am "content" (JStr "") = Ok (JStr c)).
Proof.
  split.
  - intros (resp & calls' & H).
    apply create_chat_completion_returns_inv in H.
    destruct H as (r & v & am & msg & Hb & Hs & Hj & Hm & Hr & Hc & _).
    exists r, v, am, (role msg), (content msg). done.
  - intros (r & v & am & ro & c & Hb & Hs & Hj & Hm & Hr & Hc).
    destruct (create_chat_completion_returns environ validation_error
                w request token calls r v am ro c Hb Hs Hj Hm Hr Hc)
      as (resp & H & _).
    eauto.
Qed.

(** X13. An error of the handler is one of two kinds: the backend's own
    non-200 status with the detail ["Ollama API error: "] and the backend's
    body text, or a 500 with the detail ["Error processing chat
    completion: "] and the text of the failure. *)
Theorem handler_errors_are_propagated_or_500 w request token calls e calls' :
  handler w request token calls = (Raise e, calls') ->
  (exists r,
     backend w (the_call request) = Replied r
     /\ hx_status_code r <> 200
     /\ e = HTTPException (hx_status_code r)
              ("Ollama API error: " +:+ hx_text r) None)
  \/ (exists msg,
        e = HTTPException 500
              ("Error processing chat completion: " +:+ msg) None).
Proof.
  intros H.
  destruct (backend w (the_call request)) as [cls m | r] eqn:Hb.
  - rewrite (create_chat_completion_unreachable _ _ _ _ _ _ _ _ Hb) in H.
    injection H as <- _. right. eauto.
  - destruct (decide (hx_status_code r = 200)) as [Hs | Hs].
    + right. by eapply create_chat_completion_200_raises.
    + rewrite (create_chat_completion_not_200 _ _ _ _ _ _ _ Hb Hs) in H.
      injection H as <- _. left. eauto.
Qed.

(** X14. A 200 from the backend whose body does not decode is answered
    with a 500 whose detail ends with the decoder's message; the one
    upstream call has been made. *)
Theorem undecodable_backend_body_is_a_500 w request token calls r msg :
  backend w (the_call request) = Replied r ->
  hx_status_code r = 200 ->
  hx_json r = inl msg ->
  handler w request token calls
  = (Raise (HTTPException 500
              ("Error processing chat completion: " +:+ msg) None),
     calls ++ [the_call request]).
Proof.
  intros Hb Hs Hj.
  unfold create_chat_completion, try_except, chat_completion_try, bind,
    client_post, response_json, lift.
  rewrite Hb, Hs, Hj. reflexivity.
Qed.

(** X15. A 200 whose body is a dict without [message] is answered with an
    empty assistant message and no completion tokens; a [message] without
    [role] gets the role ["assistant"]. *)
Theorem missing_reply_fields_get_defaults w request token calls r d :
  backend w (the_call request) = Replied r ->
  hx_status_code r = 200 ->
  hx_json r = inr (JDict d) ->
  (d !! "message" = None ->
   exists resp,
     handler w request token calls = (Ok resp, calls ++ [the_call request])
     /\ resp_choices resp
        = [ {| index := 0;
               message := {| role := "assistant"; content := "" |};
               finish_reason := "stop" |} ]
     /\ completion_tokens (resp_usage resp) = 0)
  /\ (forall m c,
        d !! "message" = Some (JDict m) ->
        m !! "role" = None ->
        m !! "content" = Some (JStr c) ->
        exists resp,
          handler w request token calls = (Ok resp, calls ++ [the_call request])
          /\ resp_choices resp
             = [ {| index := 0;
                    message := {| role := "assistant"; content := c |};
                    finish_reason := "stop" |} ]).
Proof.
  intros Hb Hs Hj. split.
  - intros Hm.
    unfold create_chat_completion, try_except, chat_completion_try, bind,
      client_post, response_json, lift, ret.
    rewrite Hb, Hs, Hj. simpl. rewrite Hm. simpl.
    eexists. split; [reflexivity | split; reflexivity].
  - intros m c Hm Hr Hc.
    apply (create_chat_completion_returns environ validation_error
             w request token calls r (JDict d) (JDict m) "assistant" c);
      try done; simpl.
    + by rewrite Hm.
    + by rewrite Hr.
    + by rewrite Hc.
Qed.

(** X16. A returned response has the id ["chatcmpl-"] followed by the fresh
    uuid, the object ["chat.completion"], the creation time [int(time.time())]
    and its choice at index 0. *)
Theorem response_identity_fields w request token calls resp calls' :
  handler w request token calls = (Ok resp, calls') ->
  resp_id resp = "chatcmpl-" +:+ uuid4 w
  /\ resp_object resp = "chat.completion"
  /\ resp_created resp = int_of_float (clock w)
  /\ index <$> resp_choices resp = [0].
Proof.
  intros H. apply create_chat_completion_returns_inv in H.
  destruct H as (r & v & am & msg & _ & _ & _ & _ & _ & _ & _ & ->).
  repeat split; reflexivity.
Qed.

(** X17. The prompt count only depends on the lengths of the message
    contents: it is their sum divided by 4, so roles are not counted and
    the order of the messages does not matter. All three counts are
    non-negative, and the total never exceeds a quarter of the characters
    counted. *)
Theorem usage_counts_from_lengths w request token calls resp calls' :
  handler w request token calls = (Ok resp, calls') ->
  exists choice,
    resp_choices resp = [choice]
    /\ prompt_tokens (resp_usage resp)
       = fold_right (fun m acc => len (content m) + acc) 0
           (req_messages request) / 4
    /\ 0 <= prompt_tokens (resp_usage resp)
    /\ 0 <= completion_tokens (resp_usage resp)
    /\ 4 * total_tokens (resp_usage resp)
       <= fold_right (fun m acc => len (content m) + acc) 0
            (req_messages request)
          + len (content (message choice)).
Proof.
  intros H. apply create_chat_completion_returns_inv in H.
  destruct H as (r & v & am & msg & _ & _ & _ & _ & _ & _ & _ & ->).
  exists {| index := 0; message := msg; finish_reason := "stop" |}.
  simpl. rewrite join_contents, len_concatenated. unfold floordiv.
  pose proof (sum_len_nonneg (req_messages request)) as HL.
  set (L := fold_right (fun m acc => len (content m) + acc) 0
              (req_messages request)) in *.
  assert (HC : 0 <= len (content msg)) by (unfold len; lia).
  pose proof (Z.mul_div_le L 4 ltac:(lia)).
  pose proof (Z.mul_div_le (len (content msg)) 4 ltac:(lia)).
  pose proof (Z.div_pos L 4 HL ltac:(lia)).
  pose proof (Z.div_pos _ 4 HC ltac:(lia)).
  repeat split; try done; lia.
Qed.

(** X18. With an accepted token the endpoint makes exactly one upstream
    call, whatever the backend does with it: a post to
    [OLLAMA_API_BASE + "/api/chat"] with a timeout of 120 seconds and a
    body whose [stream] is false. *)
Theorem accepted_token_makes_exactly_one_call w c request :
  credentials c ∈ API_TOKENS environ ->
  exists call,
    (endpoint w c request).2 = [call]
    /\ post_url call = OLLAMA_API_BASE environ +:+ "/api/chat"
    /\ post_timeout call = Qmake 120 1
    /\ post_json call = ollama_request request
    /\ o_stream (post_json call) = false.
Proof.
  intros Hc. exists (the_call request).
  unfold post_chat_completions.
  rewrite (verify_token_accepts environ c Hc).
  pose proof (create_chat_completion_calls environ validation_error
                w request (credentials c) []) as Hcalls.
  destruct (handler w request (credentials c) []) as [[resp | e] calls];
    simpl in *; subst calls;
    repeat split; try reflexivity;
    apply (ollama_request_model_and_messages request).
Qed.

(** X19. The endpoint answers 200 only if the credential is one of the
    configured tokens and the backend answered 200. *)
Theorem a_200_needs_a_listed_token_and_a_backend_200 w c request :
  status (endpoint w c request).1 = 200 ->
  credentials c ∈ API_TOKENS environ
  /\ exists r,
       backend w (the_call request) = Replied r /\ hx_status_code r = 200.
Proof.
  unfold post_chat_completions, verify_token.
  destruct (str_in (credentials c) (API_TOKENS environ)) eqn:E; simpl;
    [| discriminate].
  apply str_in_elem_of in E.
  destruct (handler w request (credentials c) []) as [[resp | e] calls] eqn:H;
    simpl.
  - intros _. split; [exact E |].
    apply create_chat_completion_returns_inv in H.
    destruct H as (r & v & am & msg & Hb & Hs & _). eauto.
  - apply create_chat_completion_raises_http in H.
    destruct H as (sc & d & -> & Hsc). simpl. intros Heq. contradiction.
Qed.

End HandlerMore.


Lemma handler_returns_exactly_on_a_well_formed_200_witness :
  exists resp calls',
    create_chat_completion Sample.env Sample.no_text Sample.answering
      Sample.request "test-token" []
    = (Ok resp, calls').
Proof.
  apply (proj2 (handler_returns_exactly_on_a_well_formed_200
                  Sample.env Sample.no_text Sample.answering Sample.request
                  "test-token" [])).
  exists {| hx_status_code := 200; hx_text := "{...}";
            hx_json := inr Sample.reply |},
         Sample.reply,
         (JDict (<["role" := JStr "assistant"]>
                 {["content" := JStr "Hello!"]})),
         "assistant", "Hello!".
  repeat (split; [vm_compute; reflexivity |]). vm_compute. reflexivity.
Defined.

Lemma handler_errors_are_propagated_or_500_witness :
  (exists r,
     backend Sample.missing_model (api_chat_call Sample.env Sample.request)
     = Replied r
     /\ hx_status_code r <> 200
     /\ HTTPException 404 ("Ollama API error: " +:+ "model not found") None
        = HTTPException (hx_status_code r)
            ("Ollama API error: " +:+ hx_text r) None)
  \/ (exists msg,
        HTTPException 404 ("Ollama API error: " +:+ "model not found") None
        = HTTPException 500
            ("Error processing chat completion: " +:+ msg) None).
Proof.
  apply (handler_errors_are_propagated_or_500 Sample.env Sample.no_text
           Sample.missing_model Sample.request "test-token" []
           (HTTPException 404 ("Ollama API error: " +:+ "model not found") None)
           [api_chat_call Sample.env Sample.request]).
  vm_compute. reflexivity.
Defined.

Lemma undecodable_backend_body_is_a_500_witness :
  create_chat_completion Sample.env Sample.no_text Sample.garbled
    Sample.request "test-token" []
  = (Raise (HTTPException 500
              ("Error processing chat completion: "
               +:+ "Expecting value: line 1 column 1 (char 0)") None),
     [] ++ [api_chat_call Sample.env Sample.request]).
Proof.
  apply (undecodable_backend_body_is_a_500 Sample.env Sample.no_text
           Sample.garbled Sample.request "test-token" []
           {| hx_status_code := 200; hx_text := "<html>";
              hx_json := inl "Expecting value: line 1 column 1 (char 0)" |}
           "Expecting value: line 1 column 1 (char 0)");
    reflexivity.
Defined.

Lemma missing_reply_fields_get_defaults_witness :
  (exists resp,
     create_chat_completion Sample.env Sample.no_text Sample.empty_reply
       Sample.request "test-token" []
     = (Ok resp, [] ++ [api_chat_call Sample.env Sample.request])
     /\ resp_choices resp
        = [ {| index := 0;
               message := {| role := "assistant"; content := "" |};
               finish_reason := "stop" |} ]
     /\ completion_tokens (resp_usage resp) = 0)
  /\ (exists resp,
        create_chat_completion Sample.env Sample.no_text Sample.no_role
          Sample.request "test-token" []
        = (Ok resp, [] ++ [api_chat_call Sample.env Sample.request])
        /\ resp_choices resp
           = [ {| index := 0;
                  message := {| role := "assistant"; content := "Hi there" |};
                  finish_reason := "stop" |} ]).
Proof.
  split.
  - apply (proj1 (missing_reply_fields_get_defaults Sample.env Sample.no_text
                    Sample.empty_reply Sample.request "test-token" []
                    {| hx_status_code := 200; hx_text := "{}";
                       hx_json := inr (JDict ∅) |}
                    ∅ eq_refl eq_refl eq_refl)).
    reflexivity.
  - apply (proj2 (missing_reply_fields_get_defaults Sample.env Sample.no_text
                    Sample.no_role Sample.request "test-token" []
                    {| hx_status_code := 200; hx_text := "{...}";
                       hx_json :=
                         inr (JDict {["message" :=
                                JDict {["content" := JStr "Hi there"]}]}) |}
                    {["message" := JDict {["content" := JStr "Hi there"]}]}
                    eq_refl eq_refl eq_refl)
             {["content" := JStr "Hi there"]} "Hi there");
      vm_compute; reflexivity.
Defined.

Lemma response_identity_fields_witness :
  resp_id Sample.answer = "chatcmpl-" +:+ uuid4 Sample.answering
  /\ resp_object Sample.answer = "chat.completion"
  /\ resp_created Sample.answer = int_of_float (clock Sample.answering)
  /\ index <$> resp_choices Sample.answer = [0].
Proof.
  apply (response_identity_fields Sample.env Sample.no_text Sample.answering
           Sample.request "test-token" [] Sample.answer
           [api_chat_call Sample.env Sample.request]).
  vm_compute. reflexivity.
Defined.

Lemma usage_counts_from_lengths_witness :
  exists choice,
    resp_choices Sample.answer = [choice]
    /\ prompt_tokens (resp_usage Sample.answer)
       = fold_right (fun m acc => len (content m) + acc) 0
           (req_messages Sample.request) / 4
    /\ 0 <= prompt_tokens (resp_usage Sample.answer)
    /\ 0 <= completion_tokens (resp_usage Sample.answer)
    /\ 4 * total_tokens (resp_usage Sample.answer)
       <= fold_right (fun m acc => len (content m) + acc) 0
            (req_messages Sample.request)
          + len (content (message choice)).
Proof.
  apply (usage_counts_from_lengths Sample.env Sample.no_text Sample.answering
           Sample.request "test-token" [] Sample.answer
           [api_chat_call Sample.env Sample.request]).
  vm_compute. reflexivity.
Defined.

Lemma accepted_token_makes_exactly_one_call_witness :
  exists call,
    (post_chat_completions Sample.env Sample.no_text Sample.down Sample.good
       Sample.request).2 = [call]
    /\ post_url call = OLLAMA_API_BASE Sample.env +:+ "/api/chat"
    /\ post_timeout call = Qmake 120 1
    /\ post_json call = ollama_request Sample.request
    /\ o_stream (post_json call) = false.
Proof.
  apply (accepted_token_makes_exactly_one_call Sample.env Sample.no_text
           Sample.down Sample.good Sample.request).
  apply str_in_elem_of. reflexivity.
Defined.

Lemma a_200_needs_a_listed_token_and_a_backend_200_witness :
  credentials Sample.good ∈ API_TOKENS Sample.env
  /\ exists r,
       backend Sample.answering (api_chat_call Sample.env Sample.request)
       = Replied r
       /\ hx_status_code r = 200.
Proof.
  apply (a_200_needs_a_listed_token_and_a_backend_200 Sample.env
           Sample.no_text Sample.answering Sample.good Sample.request).
  vm_compute. reflexivity.
Defined.

(** ** [example_client.py] against the gateway *)

Lemma str_take_all (n : nat) (s : string) :
  (String.length s <= n)%nat -> str_take n s = s.
Proof.
  revert s. induction n as [|n IH]; intros [|c s] Hl; simpl in *;
    try reflexivity; try lia.
  f_equal. apply IH. lia.
Qed.

Lemma length_str_take (n : nat) (s : string) :
  String.length (str_take n s) = Nat.min n (String.length s).
Proof.
  revert s. induction n as [|n IH]; intros [|c s]; simpl; try reflexivity.
  by rewrite IH.
Qed.

Lemma str_take_append (n : nat) (s t : string) :
  (n <= String.length s)%nat -> str_take n (s +:+ t) = str_take n s.
Proof.
  revert s. induction n as [|n IH]; intros [|c s] Hl; simpl in *;
    try reflexivity; try lia.
  change (String c s +:+ t) with (String c (s +:+ t)). simpl.
  f_equal. apply IH. lia.
Qed.

Lemma length_repeat_string (c : ascii) (n : nat) :
  String.length (repeat_string (String c "") n) = n.
Proof.
  induction n as [|n IH]; [reflexivity |].
  change (repeat_string (String c "") (S n))
    with (String c (repeat_string (String c "") n)).
  simpl. by rewrite IH.
Qed.

Lemma assistant_content_of_response (resp : ChatCompletionResponse) :
  assistant_content (ChatCompletionResponse_json resp)
  = match resp_choices resp with
    | c :: _ => Ok (JStr (content (message c)))
    | [] => Raise (Exception "IndexError" "list index out of range")
    end.
Proof.
  unfold assistant_content, ChatCompletionResponse_json, getitem.
  rewrite lookup_insert_ne by done. rewrite lookup_insert_ne by done.
  rewrite lookup_insert_ne by done. rewrite lookup_insert_ne by done.
  rewrite lookup_insert_eq. simpl.
  destruct (resp_choices resp) as [|c cs]; [reflexivity |]. simpl.
  rewrite lookup_insert_ne by done. rewrite lookup_insert_eq. simpl.
  rewrite lookup_insert_ne by done. rewrite lookup_singleton_eq. reflexivity.
Qed.

(** X20. Whatever the prompt, the system message and the model, the request
    of the example client reaches the backend with the model it named, the
    user prompt as last message, preceded by the system message when that is
    not empty, and with exactly the two options [temperature] 0.7 and
    [top_p] 1.0: never a token limit, never a stop list. *)
Theorem client_request_at_the_backend
    (prompt : string) (system_message : option string) (model : string) :
  o_model (ollama_request (chat_payload prompt system_message model)) = model
  /\ o_messages (ollama_request (chat_payload prompt system_message model))
     = match system_message with
       | Some sm =>
           if (sm =? "")%string
           then [ {| role := "user"; content := prompt |} ]
           else [ {| role := "system"; content := sm |};
                  {| role := "user"; content := prompt |} ]
       | None => [ {| role := "user"; content := prompt |} ]
       end
  /\ o_options (ollama_request (chat_payload prompt system_message model))
     = <["top_p" := JFloat (Qmake 1 1)]>
         (<["temperature" := JFloat (Qmake 7 10)]> ∅).
Proof.
  destruct (ollama_request_model_and_messages
              (chat_payload prompt system_message model)) as (Hm & Hms & _).
  split; [exact Hm | split; [| reflexivity]].
  rewrite Hms. simpl. unfold chat_messages.
  destruct system_message as [sm|]; [| reflexivity].
  simpl. by destruct (sm =? "")%string.
Qed.

(** X21. What the example client reads out of a response of the handler,
    [result["choices"][0]["message"]["content"]], never fails and is the
    content string of the backend's message. *)
Theorem client_reads_the_backend_content
    (environ : gmap string string) (validation_error : json -> json -> string)
    w request token calls resp calls' :
  create_chat_completion environ validation_error w request token calls
  = (Ok resp, calls') ->
  exists r v am c,
    backend w (api_chat_call environ request) = Replied r
    /\ hx_json r = inr v
    /\ get v "message" (JDict ∅) = Ok am
    /\ get am "content" (JStr "") = Ok (JStr c)
    /\ assistant_content (ChatCompletionResponse_json resp) = Ok (JStr c).
Proof.
  intros H. rewrite assistant_content_of_response.
  apply create_chat_completion_returns_inv in H.
  destruct H as (r & v & am & msg & Hb & _ & Hj & Hm & _ & Hc & _ & ->).
  exists r, v, am, (content msg). done.
Qed.

Lemma client_reads_the_backend_content_witness :
  exists r v am c,
    backend Sample.answering (api_chat_call Sample.env Sample.request)
    = Replied r
    /\ hx_json r = inr v
    /\ get v "message" (JDict ∅) = Ok am
    /\ get am "content" (JStr "") = Ok (JStr c)
    /\ assistant_content (ChatCompletionResponse_json Sample.answer)
       = Ok (JStr c).
Proof.
  apply (client_reads_the_backend_content Sample.env Sample.no_text
           Sample.answering Sample.request "test-token" [] Sample.answer
           [api_chat_call Sample.env Sample.request]).
  vm_compute. reflexivity.
Defined.

(** X22. The token as the client shows it has the length of the token and
    shows its first four characters; a token of four characters or fewer is
    shown in full, with no star at all. *)
Theorem shown_token_hides_only_beyond_four (t : string) :
  String.length (shown_token t) = String.length t
  /\ str_take 4 (shown_token t) = str_take 4 t
  /\ ((String.length t <= 4)%nat -> shown_token t = t).
Proof.
  unfold shown_token, str_times, len.
  destruct (le_lt_dec (String.length t) 4) as [Hl | Hl].
  - replace (Z.to_nat (Z.of_nat (String.length t) - 4)) with 0%nat by lia.
    change (repeat_string "*" 0) with "".
    rewrite append_empty_r, str_take_all by exact Hl.
    repeat split. by apply str_take_all.
  - split; [| split; [| lia]].
    + rewrite length_append, length_str_take, length_repeat_string. lia.
    + rewrite str_take_append by (rewrite length_str_take; lia).
      apply str_take_all. rewrite length_str_take. lia.
Qed.

Lemma shown_token_hides_only_beyond_four_witness : shown_token "abc" = "abc".
Proof.
  apply (proj2 (proj2 (shown_token_hides_only_beyond_four "abc"))).
  simpl. lia.
Defined.

Lemma split_head_is_empty (sep : ascii) (s x : string) (rest : list string) :
  split sep s = x :: rest ->
  (x =? "")%string
  = match s with
    | EmptyString => true
    | String c _ => Ascii.eqb c sep
    end.
Proof.
  destruct s as [|c s]; [by intros [= <- _] |].
  rewrite split_cons. destruct (Ascii.eqb c sep); [by intros [= <- _] |].
  destruct (split sep s); [discriminate | by intros [= <- _]].
Qed.

(** X23. Started without [--token] (or with an empty one), the client's
    [API_TOKEN] is the first entry of the gateway's [API_TOKENS] for the
    same environment. It is empty exactly when the configured string is
    empty or begins with a comma. [verify_token], called with credentials
    holding it, returns it. *)
Theorem default_client_token_is_the_first_listed
    (environ : gmap string string) :
  API_TOKEN environ (Some "") = API_TOKEN environ None
  /\ exists t rest,
       API_TOKENS environ = t :: rest
       /\ API_TOKEN environ None = Ok t
       /\ (t =? "")%string
          = match environ_get environ "API_TOKENS" "test-token" with
            | EmptyString => true
            | String c _ => Ascii.eqb c ","
            end
       /\ forall sch,
            verify_token environ {| scheme := sch; credentials := t |} = Ok t.
Proof.
  split; [reflexivity |].
  unfold API_TOKEN. fold (API_TOKENS environ).
  pose proof (split_not_nil "," (environ_get environ "API_TOKENS" "test-token"))
    as Hnil.
  pose proof (split_head_is_empty ","
                (environ_get environ "API_TOKENS" "test-token")) as Hhead.
  fold (API_TOKENS environ) in Hnil, Hhead.
  destruct (API_TOKENS environ) as [|t rest] eqn:E; [contradiction |].
  exists t, rest.
  split; [reflexivity | split; [reflexivity | split; [by eapply Hhead |]]].
  intros sch. apply verify_token_Ok_iff. split; [reflexivity |].
  simpl. rewrite E. by left.
Qed.
